(** * deeplearnjs: the WebGL execution engine

    A shallow embedding of [src/math/webgl/gpgpu_context.ts] (the class
    [GPGPUContext]) and of [src/math/webgl/gpgpu_math.ts] ([compileProgram],
    [validateBinaryAndProgram], [runProgram], [makeShaderKey]), followed by
    the properties of the engine's specification that concern them.

    JavaScript numbers that hold dimensions, sizes and indices are integers
    and are kept in [Z]; object identities (textures, programs, buffers) are
    natural-number handles; a thrown exception is a [Throw] completion that
    leaves every mutation made before it in place. *)

From Stdlib Require Import ZArith Bool Lia.
From Stdlib Require Import Strings.Ascii Strings.String.
From Stdlib Require Import Numbers.DecimalString Numbers.DecimalZ.
From Stdlib Require Import List.
Import ListNotations.

Local Open Scope string_scope.
Local Open Scope list_scope.

(* ================================================================== *)
(** ** JavaScript string conversions used by the sources *)

Module JS.

(** [Number.prototype.toString] on an integer: decimal digits, a leading
    minus sign for negatives, ["0"] for zero. *)
Definition showZ (z : Z) : string := NilZero.string_of_int (Z.to_int z).

(** [Boolean.prototype.toString]. *)
Definition showBool (b : bool) : string := if b then "true" else "false".

(** [Array.prototype.join(sep)] on an array of strings. *)
Definition join (sep : string) (l : list string) : string := String.concat sep l.

(** [Array.prototype.toString] on an array of numbers, which is what the
    template literals and the [+] of [makeShaderKey] apply: [join(',')]. *)
Definition showArray (l : list Z) : string := join "," (map showZ l).

(** A thrown value: [Error(message)], or the [TypeError] the runtime raises
    when a property of [undefined] is read. *)
Inductive Exn : Type :=
| Error (message : string)
| TypeError (message : string).

Definition message_of (e : Exn) : string :=
  match e with Error m => m | TypeError m => m end.

(** The completion of a call: a normal return or a throw. *)
Inductive Completion (A : Type) : Type :=
| Normal (a : A)
| Throw (e : Exn).
Arguments Normal {A} a.
Arguments Throw {A} e.

Definition isThrow {A} (c : Completion A) : bool :=
  match c with Throw _ => true | Normal _ => false end.

End JS.
Import JS.

(* ================================================================== *)
(** ** The host graphics API, as seen from [gpgpu_context.ts] *)

Module webgl.

Definition WebGLTexture := nat.
Definition WebGLProgram := nat.
Definition WebGLShader := nat.
Definition WebGLBuffer := nat.
Definition WebGLFramebuffer := nat.
Definition WebGLUniformLocation := nat.
(** [ImageData|HTMLImageElement|HTMLCanvasElement|HTMLVideoElement]: an
    opaque pixel source. *)
Definition PixelData := nat.
(** A [Float32Array], as the list of the 32-bit patterns of its elements. *)
Definition Float32Array := list Z.

Inductive BufferTarget := ARRAY_BUFFER | ELEMENT_ARRAY_BUFFER.

(** Every call that [gpgpu_context.ts] makes out of its own file: to the
    rendering context [gl], to the helpers of [webgl_util] and [gpgpu_util],
    to the lose-context extension and to [console].  The helpers are not part
    of the sources at hand; a call is recorded with its arguments (and, for an
    allocation, the handle it returned) and completes normally. *)
Inductive Call : Type :=
| console_warn (msg : string)
| gl_finish
| gl_bindFramebuffer (fb : option WebGLFramebuffer)
| gl_deleteFramebuffer (fb : WebGLFramebuffer)
| gl_bindBuffer (target : BufferTarget) (b : option WebGLBuffer)
| gl_deleteBuffer (b : WebGLBuffer)
| loseContext
| enableDebugWebGLErrorChecking (enabled : bool)
| createMatrixTexture (rows columns : Z) (ret : WebGLTexture)
| createPackedMatrixTexture (rows columns : Z) (ret : WebGLTexture)
| uploadPixelDataToTexture (texture : WebGLTexture) (pixels : PixelData)
| uploadMatrixToTexture (texture : WebGLTexture) (rows columns : Z)
    (matrix : Float32Array) (numChannels : Z)
| uploadMatrixToPackedTexture (texture : WebGLTexture) (rows columns : Z)
    (matrix : Float32Array)
| bindColorTextureToFramebuffer (texture : WebGLTexture) (fb : WebGLFramebuffer)
| unbindColorTextureFromFramebuffer (fb : WebGLFramebuffer)
| gl_deleteTexture (texture : WebGLTexture)
| downloadMatrixFromOutputTexture (rows columns : Z)
| downloadMatrixFromPackedOutputTexture (rows columns : Z)
| createFragmentShader (source : string) (ret : WebGLShader)
| createVertexShader (ret : WebGLShader)
| createProgram (ret : WebGLProgram)
| gl_attachShader (program : WebGLProgram) (shader : WebGLShader)
| linkProgram (program : WebGLProgram)
| validateProgram (program : WebGLProgram)
| validateFramebuffer
| gl_deleteProgram (program : WebGLProgram)
| gl_useProgram (program : option WebGLProgram)
| getProgramUniformLocationOrThrow (program : option WebGLProgram)
    (uniformName : string) (ret : WebGLUniformLocation)
| bindTextureToProgramUniformSampler (program : option WebGLProgram)
    (texture : WebGLTexture) (uniformName : option string) (textureUnit : Z)
| gl_viewport (x y width height : Z)
| gl_scissor (x y width height : Z)
| bindVertexProgramAttributeStreams (program : option WebGLProgram)
    (vertexBuffer : WebGLBuffer)
| gl_drawElements_TRIANGLES_6_UNSIGNED_SHORT_0.

Definition option_nat_eqb (a b : option nat) : bool :=
  match a, b with
  | Some x, Some y => Nat.eqb x y
  | None, None => true
  | _, _ => false
  end.

End webgl.
Import webgl.

(* ================================================================== *)
(** ** [gpgpu_context.ts] *)

Module gpgpu_context.

(** The fields of a [GPGPUContext] object that its methods read or write.
    ([gl] and the extension objects are the host API recorded in [trace].) *)
Record GPGPUContext : Type := mkGPGPUContext {
  vertexBuffer : WebGLBuffer;
  indexBuffer : WebGLBuffer;
  framebuffer : WebGLFramebuffer;
  outputTexture : option WebGLTexture;   (* WebGLTexture|null = null *)
  program : option WebGLProgram;         (* WebGLProgram|null = null *)
  disposed : bool;                       (* private disposed = false *)
  autoDebugValidate : bool               (* private autoDebugValidate = false *)
}.

(** The context object together with the host it talks to: the calls issued
    so far, oldest first, the next handle an allocation returns, and what a
    read-back returns after a given history of calls. *)
Record World : Type := mkWorld {
  gpgpu : GPGPUContext;
  trace : list Call;
  fresh : nat;
  readPixels : list Call -> Float32Array
}.

(** A method body: a state transformer that returns or throws.  A throw
    keeps the world as the statements before it left it. *)
Definition M (A : Type) : Type := World -> Completion A * World.

Definition ret {A} (a : A) : M A := fun w => (Normal a, w).

Definition bind {A B} (m : M A) (k : A -> M B) : M B :=
  fun w => match m w with
           | (Normal a, w') => k a w'
           | (Throw e, w') => (Throw e, w')
           end.

Definition throw {A} (e : Exn) : M A := fun w => (Throw e, w).

Declare Scope gpgpu_scope.
Delimit Scope gpgpu_scope with gpgpu.
Notation "x <- m ;; k" := (bind m (fun x => k))
  (at level 61, m at next level, right associativity) : gpgpu_scope.
Notation "m ;; k" := (bind m (fun _ => k))
  (at level 61, right associativity) : gpgpu_scope.
Local Open Scope gpgpu_scope.

(** [if (b) { m }] *)
Definition when (b : bool) (m : M unit) : M unit := if b then m else ret tt.

(** Reading a field of [this]. *)
Definition get {A} (f : GPGPUContext -> A) : M A :=
  fun w => (Normal (f (gpgpu w)), w).

Definition modify (g : GPGPUContext -> GPGPUContext) : M unit :=
  fun w => (Normal tt, mkWorld (g (gpgpu w)) (trace w) (fresh w) (readPixels w)).

(** A call into the host that returns nothing of interest. *)
Definition call (c : Call) : M unit :=
  fun w => (Normal tt, mkWorld (gpgpu w) (trace w ++ [c]) (fresh w) (readPixels w)).

(** A call into the host that returns a newly created object. *)
Definition alloc (c : nat -> Call) : M nat :=
  fun w => (Normal (fresh w),
            mkWorld (gpgpu w) (trace w ++ [c (fresh w)]) (S (fresh w)) (readPixels w)).

(** A call into the host that reads pixels back. *)
Definition readback (c : Call) : M Float32Array :=
  fun w => (Normal (readPixels w (trace w ++ [c])),
            mkWorld (gpgpu w) (trace w ++ [c]) (fresh w) (readPixels w)).

Definition set_outputTexture (t : option WebGLTexture) (c : GPGPUContext) :=
  mkGPGPUContext (vertexBuffer c) (indexBuffer c) (framebuffer c) t
    (program c) (disposed c) (autoDebugValidate c).

Definition set_program (p : option WebGLProgram) (c : GPGPUContext) :=
  mkGPGPUContext (vertexBuffer c) (indexBuffer c) (framebuffer c)
    (outputTexture c) p (disposed c) (autoDebugValidate c).

Definition set_disposed (b : bool) (c : GPGPUContext) :=
  mkGPGPUContext (vertexBuffer c) (indexBuffer c) (framebuffer c)
    (outputTexture c) (program c) b (autoDebugValidate c).

Definition set_autoDebugValidate (b : bool) (c : GPGPUContext) :=
  mkGPGPUContext (vertexBuffer c) (indexBuffer c) (framebuffer c)
    (outputTexture c) (program c) (disposed c) b.

Definition isSome {A} (o : option A) : bool :=
  match o with Some _ => true | None => false end.

(* ================================================================== *)
(** ** [class GPGPUContext] *)

Definition disposedMessage : string := "Attempted to use disposed GPGPUContext.".
Definition noProgramMessage : string := "No GPU program is currently set.".

Definition programLeakWarning : string :=
  "Disposing a GPGPUContext that still has a bound WebGLProgram." ++
  " This is probably a resource leak, delete the program with " ++
  "GPGPUContext.deleteProgram before disposing.".

Definition outputTextureLeakWarning : string :=
  "Disposing a GPGPUContext that still has a bound output matrix " ++
  "texture.  This is probably a resource leak, delete the output " ++
  "matrix texture with GPGPUContext.deleteMatrixTexture before " ++
  "disposing.".

Definition throwIfDisposed : M unit :=
  d <- get disposed ;;
  if d then throw (Error disposedMessage) else ret tt.

Definition throwIfNoProgram : M unit :=
  p <- get program ;;
  match p with
  | None => throw (Error noProgramMessage)
  | Some _ => ret tt
  end.

Definition dispose : M unit :=
  throwIfDisposed ;;
  p <- get program ;;
  when (isSome p) (call (console_warn programLeakWarning)) ;;
  t <- get outputTexture ;;
  when (isSome t) (call (console_warn outputTextureLeakWarning)) ;;
  call gl_finish ;;
  call (gl_bindFramebuffer None) ;;
  fb <- get framebuffer ;;
  call (gl_deleteFramebuffer fb) ;;
  call (gl_bindBuffer ARRAY_BUFFER None) ;;
  vb <- get vertexBuffer ;;
  call (gl_deleteBuffer vb) ;;
  call (gl_bindBuffer ELEMENT_ARRAY_BUFFER None) ;;
  ib <- get indexBuffer ;;
  call (gl_deleteBuffer ib) ;;
  call loseContext ;;
  modify (set_disposed true).

Definition enableAutomaticDebugValidation (enabled : bool) : M unit :=
  modify (set_autoDebugValidate enabled) ;;
  call (enableDebugWebGLErrorChecking enabled).

Definition createMatrixTexture (rows columns : Z) : M WebGLTexture :=
  throwIfDisposed ;;
  alloc (webgl.createMatrixTexture rows columns).

Definition uploadPixelDataToTexture (texture : WebGLTexture) (pixels : PixelData)
  : M unit :=
  throwIfDisposed ;;
  call (webgl.uploadPixelDataToTexture texture pixels).

Definition createPackedMatrixTexture (rows columns : Z) : M WebGLTexture :=
  throwIfDisposed ;;
  alloc (webgl.createPackedMatrixTexture rows columns).

Definition deleteMatrixTexture (texture : WebGLTexture) : M unit :=
  throwIfDisposed ;;
  out <- get outputTexture ;;
  when (option_nat_eqb out (Some texture))
    (fb <- get framebuffer ;;
     call (unbindColorTextureFromFramebuffer fb) ;;
     modify (set_outputTexture None)) ;;
  call (gl_deleteTexture texture).

Definition uploadMatrixToTexture (texture : WebGLTexture) (rows columns : Z)
    (matrix : Float32Array) : M unit :=
  throwIfDisposed ;;
  let numChannels := 1%Z in
  call (webgl.uploadMatrixToTexture texture rows columns matrix numChannels).

Definition uploadMatrixToPackedTexture (texture : WebGLTexture) (rows columns : Z)
    (matrix : Float32Array) : M unit :=
  throwIfDisposed ;;
  call (webgl.uploadMatrixToPackedTexture texture rows columns matrix).

Definition downloadMatrixDriver (texture : WebGLTexture)
    (downloadAndDecode : M Float32Array) : M Float32Array :=
  throwIfDisposed ;;
  fb <- get framebuffer ;;
  call (bindColorTextureToFramebuffer texture fb) ;;
  result <- downloadAndDecode ;;
  out <- get outputTexture ;;
  match out with
  | Some o =>
      call (bindColorTextureToFramebuffer o fb) ;;
      adv <- get autoDebugValidate ;;
      when adv (call validateFramebuffer)
  | None =>
      call (unbindColorTextureFromFramebuffer fb)
  end ;;
  ret result.

Definition downloadMatrixFromTexture (texture : WebGLTexture) (rows columns : Z)
  : M Float32Array :=
  downloadMatrixDriver texture
    (readback (downloadMatrixFromOutputTexture rows columns)).

Definition downloadMatrixFromPackedTexture (texture : WebGLTexture)
    (rows columns : Z) : M Float32Array :=
  downloadMatrixDriver texture
    (readback (downloadMatrixFromPackedOutputTexture rows columns)).

Definition createProgram (fragmentShaderSource : string) : M WebGLProgram :=
  throwIfDisposed ;;
  fragmentShader <- alloc (createFragmentShader fragmentShaderSource) ;;
  vertexShader <- alloc createVertexShader ;;
  program <- alloc webgl.createProgram ;;
  call (gl_attachShader program vertexShader) ;;
  call (gl_attachShader program fragmentShader) ;;
  call (linkProgram program) ;;
  adv <- get autoDebugValidate ;;
  when adv (call (validateProgram program)) ;;
  ret program.

Definition deleteProgram (program : option WebGLProgram) : M unit :=
  throwIfDisposed ;;
  cur <- get gpgpu_context.program ;;
  when (option_nat_eqb program cur) (modify (set_program None)) ;;
  match program with
  | Some p => call (gl_deleteProgram p)
  | None => ret tt
  end.

Definition setProgram (program : option WebGLProgram) : M unit :=
  throwIfDisposed ;;
  modify (set_program program) ;;
  cur <- get gpgpu_context.program ;;
  adv <- get autoDebugValidate ;;
  match cur with
  | Some p => when adv (call (validateProgram p))
  | None => ret tt
  end ;;
  call (gl_useProgram program).

Definition getUniformLocation (uniformName : string) : M WebGLUniformLocation :=
  throwIfDisposed ;;
  throwIfNoProgram ;;
  p <- get program ;;
  alloc (getProgramUniformLocationOrThrow p uniformName).

Definition setInputMatrixTexture (inputMatrixTexture : WebGLTexture)
    (uniformName : option string) (textureUnit : Z) : M unit :=
  throwIfDisposed ;;
  throwIfNoProgram ;;
  p <- get program ;;
  call (bindTextureToProgramUniformSampler p inputMatrixTexture uniformName
          textureUnit).

Definition setOutputMatrixTextureDriver
    (outputMatrixTextureMaybePacked : WebGLTexture) (width height : Z) : M unit :=
  throwIfDisposed ;;
  fb <- get framebuffer ;;
  call (bindColorTextureToFramebuffer outputMatrixTextureMaybePacked fb) ;;
  adv <- get autoDebugValidate ;;
  when adv (call validateFramebuffer) ;;
  modify (set_outputTexture (Some outputMatrixTextureMaybePacked)) ;;
  call (gl_viewport 0 0 width height) ;;
  call (gl_scissor 0 0 width height).

Definition setOutputMatrixTexture (outputMatrixTexture : WebGLTexture)
    (rows columns : Z) : M unit :=
  setOutputMatrixTextureDriver outputMatrixTexture columns rows.

Definition setOutputMatrixWriteRegionDriver (x y width height : Z) : M unit :=
  throwIfDisposed ;;
  call (gl_scissor x y width height).

Definition setOutputMatrixWriteRegion (startRow numRows startColumn numColumns : Z)
  : M unit :=
  setOutputMatrixWriteRegionDriver startColumn startRow numColumns numRows.

Definition setOutputPackedMatrixWriteRegion
    (startRow numRows startColumn numColumns : Z) : M unit :=
  throw (Error "setOutputPackedMatrixWriteRegion not implemented.").

Definition debugValidate : M unit :=
  p <- get program ;;
  match p with
  | Some q => call (validateProgram q)
  | None => ret tt
  end ;;
  call validateFramebuffer.

Definition executeProgram : M unit :=
  throwIfDisposed ;;
  throwIfNoProgram ;;
  p <- get program ;;
  vb <- get vertexBuffer ;;
  call (bindVertexProgramAttributeStreams p vb) ;;
  adv <- get autoDebugValidate ;;
  when adv debugValidate ;;
  call gl_drawElements_TRIANGLES_6_UNSIGNED_SHORT_0.

Definition blockUntilAllProgramsCompleted : M unit :=
  throwIfDisposed ;;
  call gl_finish.

Section PackedOutput.

(** [tex_util.getPackedMatrixTextureShapeWidthHeight(rows, columns)], a pure
    function of another file. *)
Variable getPackedMatrixTextureShapeWidthHeight : Z -> Z -> Z * Z.

Definition setOutputPackedMatrixTexture (outputPackedMatrixTexture : WebGLTexture)
    (rows columns : Z) : M unit :=
  throwIfDisposed ;;
  let '(width, height) := getPackedMatrixTextureShapeWidthHeight rows columns in
  setOutputMatrixTextureDriver outputPackedMatrixTexture width height.

(** The public methods of the class, each with its arguments. *)
Inductive Method : Type :=
| m_dispose
| m_enableAutomaticDebugValidation (enabled : bool)
| m_createMatrixTexture (rows columns : Z)
| m_uploadPixelDataToTexture (texture : WebGLTexture) (pixels : PixelData)
| m_createPackedMatrixTexture (rows columns : Z)
| m_deleteMatrixTexture (texture : WebGLTexture)
| m_uploadMatrixToTexture (texture : WebGLTexture) (rows columns : Z)
    (matrix : Float32Array)
| m_uploadMatrixToPackedTexture (texture : WebGLTexture) (rows columns : Z)
    (matrix : Float32Array)
| m_downloadMatrixFromTexture (texture : WebGLTexture) (rows columns : Z)
| m_downloadMatrixFromPackedTexture (texture : WebGLTexture) (rows columns : Z)
| m_createProgram (fragmentShaderSource : string)
| m_deleteProgram (program : option WebGLProgram)
| m_setProgram (program : option WebGLProgram)
| m_getUniformLocation (uniformName : string)
| m_setInputMatrixTexture (inputMatrixTexture : WebGLTexture)
    (uniformName : option string) (textureUnit : Z)
| m_setOutputMatrixTexture (outputMatrixTexture : WebGLTexture) (rows columns : Z)
| m_setOutputPackedMatrixTexture (outputPackedMatrixTexture : WebGLTexture)
    (rows columns : Z)
| m_setOutputMatrixWriteRegion (startRow numRows startColumn numColumns : Z)
| m_setOutputPackedMatrixWriteRegion (startRow numRows startColumn numColumns : Z)
| m_debugValidate
| m_executeProgram
| m_blockUntilAllProgramsCompleted.

(** What a method returns. *)
Inductive Returned : Type :=
| r_void
| r_handle (h : nat)
| r_array (a : Float32Array).

Definition returning {A} (f : A -> Returned) (m : M A) : M Returned :=
  a <- m ;; ret (f a).

(** Invoking a public method on the context. *)
Definition invoke (m : Method) : M Returned :=
  match m with
  | m_dispose => returning (fun _ => r_void) dispose
  | m_enableAutomaticDebugValidation e =>
      returning (fun _ => r_void) (enableAutomaticDebugValidation e)
  | m_createMatrixTexture r c => returning r_handle (createMatrixTexture r c)
  | m_uploadPixelDataToTexture t px =>
      returning (fun _ => r_void) (uploadPixelDataToTexture t px)
  | m_createPackedMatrixTexture r c =>
      returning r_handle (createPackedMatrixTexture r c)
  | m_deleteMatrixTexture t => returning (fun _ => r_void) (deleteMatrixTexture t)
  | m_uploadMatrixToTexture t r c a =>
      returning (fun _ => r_void) (uploadMatrixToTexture t r c a)
  | m_uploadMatrixToPackedTexture t r c a =>
      returning (fun _ => r_void) (uploadMatrixToPackedTexture t r c a)
  | m_downloadMatrixFromTexture t r c =>
      returning r_array (downloadMatrixFromTexture t r c)
  | m_downloadMatrixFromPackedTexture t r c =>
      returning r_array (downloadMatrixFromPackedTexture t r c)
  | m_createProgram src => returning r_handle (createProgram src)
  | m_deleteProgram p => returning (fun _ => r_void) (deleteProgram p)
  | m_setProgram p => returning (fun _ => r_void) (setProgram p)
  | m_getUniformLocation n => returning r_handle (getUniformLocation n)
  | m_setInputMatrixTexture t n u =>
      returning (fun _ => r_void) (setInputMatrixTexture t n u)
  | m_setOutputMatrixTexture t r c =>
      returning (fun _ => r_void) (setOutputMatrixTexture t r c)
  | m_setOutputPackedMatrixTexture t r c =>
      returning (fun _ => r_void) (setOutputPackedMatrixTexture t r c)
  | m_setOutputMatrixWriteRegion a b c d =>
      returning (fun _ => r_void) (setOutputMatrixWriteRegion a b c d)
  | m_setOutputPackedMatrixWriteRegion a b c d =>
      returning (fun _ => r_void) (setOutputPackedMatrixWriteRegion a b c d)
  | m_debugValidate => returning (fun _ => r_void) debugValidate
  | m_executeProgram => returning (fun _ => r_void) executeProgram
  | m_blockUntilAllProgramsCompleted =>
      returning (fun _ => r_void) blockUntilAllProgramsCompleted
  end.

End PackedOutput.

(** The methods whose body opens with [this.throwIfDisposed()], directly or
    through the private driver they delegate to. *)
Definition checksDisposed (m : Method) : bool :=
  match m with
  | m_enableAutomaticDebugValidation _ => false
  | m_setOutputPackedMatrixWriteRegion _ _ _ _ => false
  | m_debugValidate => false
  | _ => true
  end.

(** The methods that call [this.throwIfNoProgram()]. *)
Definition needsProgram (m : Method) : bool :=
  match m with
  | m_getUniformLocation _ => true
  | m_setInputMatrixTexture _ _ _ => true
  | m_executeProgram => true
  | _ => false
  end.

(** The texture named by the latest attach or detach of the color attachment
    of framebuffer [fb] in a history of calls; [None] when the latest was a
    detach or there was none. *)
Fixpoint colorAttachment (fb : WebGLFramebuffer) (calls : list Call)
  (acc : option WebGLTexture) : option WebGLTexture :=
  match calls with
  | [] => acc
  | bindColorTextureToFramebuffer t fb' :: rest =>
      colorAttachment fb rest (if Nat.eqb fb fb' then Some t else acc)
  | unbindColorTextureFromFramebuffer fb' :: rest =>
      colorAttachment fb rest (if Nat.eqb fb fb' then None else acc)
  | _ :: rest => colorAttachment fb rest acc
  end.

Definition attachedTexture (fb : WebGLFramebuffer) (calls : list Call)
  : option WebGLTexture := colorAttachment fb calls None.

(** The rectangle of the latest [gl.viewport] (resp. [gl.scissor]) call. *)
Fixpoint lastViewport (calls : list Call) (acc : option (Z * Z * Z * Z))
  : option (Z * Z * Z * Z) :=
  match calls with
  | [] => acc
  | gl_viewport x y w h :: rest => lastViewport rest (Some (x, y, w, h))
  | _ :: rest => lastViewport rest acc
  end.

Fixpoint lastScissor (calls : list Call) (acc : option (Z * Z * Z * Z))
  : option (Z * Z * Z * Z) :=
  match calls with
  | [] => acc
  | gl_scissor x y w h :: rest => lastScissor rest (Some (x, y, w, h))
  | _ :: rest => lastScissor rest acc
  end.

(** The messages of the [console.warn] calls in a history. *)
Definition warnings (calls : list Call) : list string :=
  flat_map (fun c => match c with console_warn m => [m] | _ => [] end) calls.

End gpgpu_context.

(* ================================================================== *)
(** ** [gpgpu_math.ts] *)

Module gpgpu_math.
Import gpgpu_context.
Local Open Scope gpgpu_scope.

(** Modelled from the spec: [NDArray] (ndarray.ts) is not among the sources.
    An array that is live on the GPU is what [gpgpu_math.ts] reads of it: its
    logical shape ([shape]), the physical shape of its texture
    ([getTextureShapeRC()]) and the texture handle ([getTexture()]); the
    ShapeInfo of a realised array is immutable, so the getters are reads. *)
Record NDArray : Type := mkNDArray {
  shape : list Z;
  getTextureShapeRC : Z * Z;
  getTexture : WebGLTexture
}.

(** [ShapeInfo] of shader_compiler.ts, as [gpgpu_math.ts] builds and reads it. *)
Record ShapeInfo : Type := mkShapeInfo {
  logicalShape : list Z;
  texShape : Z * Z
}.

(** An element of [params: Array<{}>] with its [toString()]. *)
Inductive Param : Type :=
| p_number (n : Z)
| p_string (s : string)
| p_boolean (b : bool)
| p_array (l : list Z).

Definition toString (p : Param) : string :=
  match p with
  | p_number n => showZ n
  | p_string s => s
  | p_boolean b => showBool b
  | p_array l => showArray l
  end.

(** [interface GPGPUProgram]; [constructor_name] is [program.constructor.name]. *)
Record GPGPUProgram : Type := mkGPGPUProgram {
  constructor_name : string;
  variableNames : list string;
  outputShape : list Z;
  params : list Param;
  userCode : string;
  supportsBroadcasting : option bool     (* supportsBroadcasting?: boolean *)
}.

(** [interface GPGPUBinary]; its [gpgpu] field refers to the context of the
    [World] the calls run in. *)
Record GPGPUBinary : Type := mkGPGPUBinary {
  webGLProgram : WebGLProgram;
  program : GPGPUProgram;
  source : string;
  inShapeInfos : list ShapeInfo;
  outShapeInfo : ShapeInfo
}.

(** The [{name, shapeInfo}] objects handed to the shader compiler; [name] is
    [program.variableNames[i]], [undefined] past the end of the array. *)
Record InputInfo : Type := mkInputInfo {
  name : option string;
  shapeInfo : ShapeInfo
}.

(** [program.supportsBroadcasting === true] *)
Definition broadcasting (p : GPGPUProgram) : bool :=
  match supportsBroadcasting p with Some true => true | _ => false end.

(** [Array.prototype.map((x, i) => ...)] and [forEach((x, i) => ...)]. *)
Fixpoint mapi_from {A B} (i : nat) (f : A -> nat -> B) (l : list A) : list B :=
  match l with
  | [] => []
  | x :: rest => f x i :: mapi_from (S i) f rest
  end.

Fixpoint forEach_from {A} (i : nat) (f : A -> nat -> M unit) (l : list A) : M unit :=
  match l with
  | [] => ret tt
  | x :: rest => f x i ;; forEach_from (S i) f rest
  end.

Definition shapeInfoOf (x : NDArray) : ShapeInfo :=
  mkShapeInfo (shape x) (getTextureShapeRC x).

Definition pairToArray (p : Z * Z) : list Z := [fst p; snd p].

(** Modelled from the spec: [util.arraysEqual] (util.ts) is not among the
    sources; two arrays are equal when they have the same length and the same
    element at every index. *)
Fixpoint arraysEqual (n1 n2 : list Z) : bool :=
  match n1, n2 with
  | [], [] => true
  | a :: r1, b :: r2 => Z.eqb a b && arraysEqual r1 r2
  | _, _ => false
  end.

(** A pure computation that may throw, run inside [M]. *)
Definition lift {A} (c : Completion A) : M A := fun w => (c, w).

Section Compile.

(** [shader_compiler.makeShader(inputInfos, outShapeInfo, userCode,
    broadcast)], of another file: it returns the source text or throws. *)
Variable makeShader :
  list InputInfo -> ShapeInfo -> string -> bool -> Completion string.

Definition compileProgram (program : GPGPUProgram) (inputs : list NDArray)
    (output : NDArray) : M GPGPUBinary :=
  let userCode := userCode program in
  let inputInfos :=
    mapi_from 0 (fun input i =>
      let shapeInfo := mkShapeInfo (shape input) (getTextureShapeRC input) in
      mkInputInfo (nth_error (variableNames program) i) shapeInfo) inputs in
  let inShapeInfos := map shapeInfo inputInfos in
  let outShapeInfo := mkShapeInfo (shape output) (getTextureShapeRC output) in
  source <- lift (makeShader inputInfos outShapeInfo userCode
                    (broadcasting program)) ;;
  webGLProgram <- createProgram source ;;
  ret (mkGPGPUBinary webGLProgram program source inShapeInfos outShapeInfo).

End Compile.

Definition arityMessage (compiled executed : nat) : string :=
  "Binary was compiled with " ++ showZ (Z.of_nat compiled) ++ " inputs, but " ++
  "was executed with " ++ showZ (Z.of_nat executed) ++ " inputs".

Definition shapeMessage (shapeA shapeB : list Z) : string :=
  "Binary was compiled with different shapes than " ++
  "the current args. Shapes " ++ showArray shapeA ++ " and " ++
  showArray shapeB ++ " must match".

Definition texShapeMessage (texShapeA texShapeB : Z * Z) : string :=
  "Binary was compiled with different texture shapes than the" ++
  " current args. Shape " ++ showArray (pairToArray texShapeA) ++ " and " ++
  showArray (pairToArray texShapeB) ++ " must match".

(** The [forEach] of [validateBinaryAndProgram], from index [i] on. *)
Fixpoint validateEach (i : nat) (shapeInfos : list ShapeInfo)
    (inputs : list NDArray) : Completion unit :=
  match shapeInfos with
  | [] => Normal tt
  | s :: rest =>
      let shapeA := logicalShape s in
      let texShapeA := texShape s in
      match nth_error inputs i with
      | None => Throw (TypeError "Cannot read property 'shape' of undefined")
      | Some input =>
          let shapeB := shape input in
          let texShapeB := getTextureShapeRC input in
          if negb (arraysEqual shapeA shapeB) then
            Throw (Error (shapeMessage shapeA shapeB))
          else if negb (arraysEqual (pairToArray texShapeA) (pairToArray texShapeB))
          then Throw (Error (texShapeMessage texShapeA texShapeB))
          else validateEach (S i) rest inputs
      end
  end.

Definition validateBinaryAndProgram (shapeInfos : list ShapeInfo)
    (inputs : list NDArray) : Completion unit :=
  if negb (Nat.eqb (length shapeInfos) (length inputs)) then
    Throw (Error (arityMessage (length shapeInfos) (length inputs)))
  else validateEach 0 shapeInfos inputs.

Definition runProgram (binary : GPGPUBinary) (inputs : list NDArray)
    (output : NDArray) (customSetup : option (M unit)) : M unit :=
  lift (validateBinaryAndProgram (inShapeInfos binary) inputs) ;;
  lift (validateBinaryAndProgram [outShapeInfo binary] [output]) ;;
  let outTex := getTexture output in
  let outTexShape := getTextureShapeRC output in
  setOutputMatrixTexture outTex (fst outTexShape) (snd outTexShape) ;;
  setProgram (Some (webGLProgram binary)) ;;
  forEach_from 0 (fun input i =>
    let tex := getTexture input in
    setInputMatrixTexture tex (nth_error (variableNames (program binary)) i)
      (Z.of_nat i)) inputs ;;
  match customSetup with
  | Some setup => setup
  | None => ret tt
  end ;;
  executeProgram.

Definition makeShaderKey (program : GPGPUProgram) (inputs : list NDArray)
    (output : NDArray) : string :=
  let params := params program in
  let keyStart :=
    map (fun x => showArray (shape x) ++ "_" ++
                  showArray (pairToArray (getTextureShapeRC x)))%string
        (inputs ++ [output]) in
  let keyEnd := map toString params in
  let key := [constructor_name program] in
  let key := key ++ [showBool (broadcasting program)] in
  let key := key ++ keyStart ++ keyEnd in
  join "_" key.

End gpgpu_math.

(* ================================================================== *)
(** ** The constructor of [GPGPUContext] *)

Module gpgpu_context_new.
Import gpgpu_context.

Definition WebGLRenderingContext := nat.

(** The calls the constructor makes out of its file, in order. *)
Inductive SetupCall : Type :=
| createWebGLContext (ret : WebGLRenderingContext)
| getExtensionOrThrow (gl : WebGLRenderingContext) (extensionName : string)
| createVertexBuffer (gl : WebGLRenderingContext) (ret : WebGLBuffer)
| createIndexBuffer (gl : WebGLRenderingContext) (ret : WebGLBuffer)
| createFramebuffer (gl : WebGLRenderingContext) (ret : WebGLFramebuffer).

(** The host during construction: the calls made so far and the next handle
    a creation returns. *)
Record Host : Type := mkHost {
  calls : list SetupCall;
  next : nat
}.

Definition H (A : Type) : Type := Host -> Completion A * Host.

Definition hbind {A B} (m : H A) (k : A -> H B) : H B :=
  fun h => match m h with
           | (Normal a, h') => k a h'
           | (Throw e, h') => (Throw e, h')
           end.

Definition hret {A} (a : A) : H A := fun h => (Normal a, h).

Definition create (c : nat -> SetupCall) : H nat :=
  fun h => (Normal (next h), mkHost (calls h ++ [c (next h)]) (S (next h))).

Section Constructor.

(** [webgl_util.isWebGL2Enabled()], and what [webgl_util.getExtensionOrThrow]
    does for a name on this host (it returns the extension object, which the
    class only stores, or throws): both belong to another file. *)
Variable isWebGL2Enabled : bool.
Variable extension : string -> Completion unit.

Definition getExtension (gl : WebGLRenderingContext) (extensionName : string)
  : H unit :=
  fun h => (extension extensionName,
            mkHost (calls h ++ [getExtensionOrThrow gl extensionName]) (next h)).

Definition constructor (gl : option WebGLRenderingContext) : H GPGPUContext :=
  hbind (match gl with
         | Some g => hret g
         | None => create createWebGLContext
         end) (fun this_gl =>
  hbind (if negb isWebGL2Enabled
         then getExtension this_gl "OES_texture_float"
         else getExtension this_gl "EXT_color_buffer_float") (fun _ =>
  hbind (getExtension this_gl "WEBGL_lose_context") (fun _ =>
  hbind (create (createVertexBuffer this_gl)) (fun vertexBuffer =>
  hbind (create (createIndexBuffer this_gl)) (fun indexBuffer =>
  hbind (create (createFramebuffer this_gl)) (fun framebuffer =>
  hret (mkGPGPUContext vertexBuffer indexBuffer framebuffer
          None None false false))))))).

End Constructor.

(** The calls that allocate something the context would own. *)
Definition allocates (c : SetupCall) : bool :=
  match c with
  | createVertexBuffer _ _ => true
  | createIndexBuffer _ _ => true
  | createFramebuffer _ _ => true
  | _ => false
  end.

(** The name of the float extension the constructor asks for. *)
Definition floatExtension (isWebGL2Enabled : bool) : string :=
  if isWebGL2Enabled then "EXT_color_buffer_float" else "OES_texture_float".

End gpgpu_context_new.

Import gpgpu_context gpgpu_math.
Local Open Scope gpgpu_scope.

(* ================================================================== *)
(** ** Vocabulary of the statements, and sample values *)

(** A context as its constructor leaves it (buffers and framebuffer created,
    nothing bound), in a host that reads back zeros. *)
Definition readyContext : GPGPUContext :=
  mkGPGPUContext 1 2 3 None None false false.

Definition readyWorld : World :=
  mkWorld readyContext [] 4 (fun _ => []).

Definition sampleProgram : GPGPUProgram :=
  mkGPGPUProgram "AddProgram" ["A"; "B"] [2; 2]%Z [p_number 3; p_array [1; 2]%Z]
    "setOutput(getA() + getB());" (Some true).

(** The calls [dispose] issues to release what the context owns. *)
Definition releaseCalls (c : GPGPUContext) : list Call :=
  [gl_finish;
   gl_bindFramebuffer None; gl_deleteFramebuffer (framebuffer c);
   gl_bindBuffer ARRAY_BUFFER None; gl_deleteBuffer (vertexBuffer c);
   gl_bindBuffer ELEMENT_ARRAY_BUFFER None; gl_deleteBuffer (indexBuffer c);
   loseContext].

(** The leak diagnostics [dispose] owes for a context: one per bound slot. *)
Definition leakCalls (c : GPGPUContext) : list Call :=
  (if isSome (gpgpu_context.program c)
   then [console_warn programLeakWarning] else []) ++
  (if isSome (outputTexture c)
   then [console_warn outputTextureLeakWarning] else []).

Definition boundResources (c : GPGPUContext) : nat :=
  (if isSome (gpgpu_context.program c) then 1 else 0) +
  (if isSome (outputTexture c) then 1 else 0).

(** A world that differs from [w] in its context object and in the calls
    issued since. *)
Definition after (w : World) (c : GPGPUContext) (issued : list Call) : World :=
  mkWorld c (trace w ++ issued) (fresh w) (readPixels w).

(** Two inputs and an output as the tests build them: a 2x2 matrix, a
    scalar and a 2x2 result, and a binary compiled for them. *)
Definition arrayA : NDArray := mkNDArray [2; 2]%Z (2, 2)%Z 10.
Definition arrayB : NDArray := mkNDArray [] (1, 1)%Z 11.
Definition arrayOut : NDArray := mkNDArray [2; 2]%Z (2, 2)%Z 12.
(** A vector of three elements, of another shape than [arrayA]. *)
Definition arrayV : NDArray := mkNDArray [3]%Z (1, 3)%Z 13.

Definition sampleBinary : GPGPUBinary :=
  mkGPGPUBinary 6 sampleProgram "void main() {}"
    [shapeInfoOf arrayA; shapeInfoOf arrayB] (shapeInfoOf arrayOut).

(** The calls of [setOutputMatrixTextureDriver], of [setProgram] on a
    program, of the input loop of [runProgram], of [executeProgram] and of
    [createProgram], for a context [c]. *)
Definition outputBindingCalls (c : GPGPUContext) (texture : WebGLTexture)
    (width height : Z) : list Call :=
  [bindColorTextureToFramebuffer texture (framebuffer c)] ++
  (if autoDebugValidate c then [validateFramebuffer] else []) ++
  [gl_viewport 0 0 width height; gl_scissor 0 0 width height].

Definition programBindingCalls (c : GPGPUContext) (p : WebGLProgram) : list Call :=
  (if autoDebugValidate c then [validateProgram p] else []) ++
  [gl_useProgram (Some p)].

Definition inputBindingCalls (from : nat) (p : option WebGLProgram)
    (names : list string) (inputs : list NDArray) : list Call :=
  mapi_from from (fun input i =>
    bindTextureToProgramUniformSampler p (getTexture input) (nth_error names i)
      (Z.of_nat i)) inputs.

Definition executeCalls (c : GPGPUContext) (p : WebGLProgram) : list Call :=
  [bindVertexProgramAttributeStreams (Some p) (vertexBuffer c)] ++
  (if autoDebugValidate c then [validateProgram p; validateFramebuffer] else []) ++
  [gl_drawElements_TRIANGLES_6_UNSIGNED_SHORT_0].

Definition createProgramCalls (c : GPGPUContext) (next : nat) (source : string)
  : list Call :=
  [createFragmentShader source next; createVertexShader (S next);
   webgl.createProgram (S (S next));
   gl_attachShader (S (S next)) (S next); gl_attachShader (S (S next)) next;
   linkProgram (S (S next))] ++
  (if autoDebugValidate c then [validateProgram (S (S next))] else []).

(** What [makeShaderKey] reads of an array, and of a call. *)
Definition shapeData (x : NDArray) : list Z * (Z * Z) :=
  (shape x, getTextureShapeRC x).

Definition keyData (program : GPGPUProgram) (inputs : list NDArray)
    (output : NDArray)
  : string * bool * list string * list (list Z * (Z * Z)) :=
  (constructor_name program, broadcasting program,
   map toString (params program), map shapeData (inputs ++ [output])).

(** The key element of one array: [x.shape + '_' + x.getTextureShapeRC()]. *)
Definition keyElement (d : list Z * (Z * Z)) : string :=
  (showArray (fst d) ++ "_" ++ showArray (pairToArray (snd d)))%string.

(** [sep + e] for every [e] of a list, concatenated: what [join(sep)] adds
    after the first element. *)
Fixpoint trailing (sep : string) (l : list string) : string :=
  match l with
  | [] => ""
  | e :: rest => (sep ++ e ++ trailing sep rest)%string
  end.

Definition isDigit (c : ascii) : bool :=
  match c with
  | "0" | "1" | "2" | "3" | "4" | "5" | "6" | "7" | "8" | "9" => true
  | _ => false
  end%char.

Fixpoint allDigits (s : string) : bool :=
  match s with
  | EmptyString => true
  | String c rest => isDigit c && allDigits rest
  end.

(** A text that is empty or opens with something else than a digit. *)
Definition nondigitStart (s : string) : bool :=
  match s with
  | EmptyString => true
  | String c _ => negb (isDigit c)
  end.

(** A text that is empty or opens with the key separator. *)
Definition underscoreStart (s : string) : bool :=
  match s with
  | EmptyString => true
  | String c _ => Ascii.eqb c "_"
  end.

(** A live context with program 6 active and texture 12 bound as output, and
    the same context once disposed in that condition. *)
Definition boundWorld : World :=
  snd (setProgram (Some 6) (snd (setOutputMatrixTexture 12 2 2 readyWorld))).

Definition leakyDisposedWorld : World := snd (dispose boundWorld).

(** The current shapes of array [x] are the ones captured in [s]. *)
Definition matches (s : ShapeInfo) (x : NDArray) : Prop :=
  logicalShape s = shape x /\ texShape s = getTextureShapeRC x.

Definition differs (sx : ShapeInfo * NDArray) : Prop :=
  ~ matches (fst sx) (snd sx).

(** The (captured, current) pairs [runProgram] compares: each input against
    the snapshot at its index, then the output against the output snapshot. *)
Definition comparedPairs (binary : GPGPUBinary) (inputs : list NDArray)
    (output : NDArray) : list (ShapeInfo * NDArray) :=
  combine (inShapeInfos binary) inputs ++ [(outShapeInfo binary, output)].

(** [e] is one of the two shape errors of [validateBinaryAndProgram] for the
    pair [(s, x)]: the one that carries the captured and the current logical
    shape, these being different, or the one that carries the captured and
    the current texture shape, these being different.  (Which of the two is
    thrown when both differ is what [reportsDifferenceOf] adds.) *)
Definition namesShapesOf (s : ShapeInfo) (x : NDArray) (e : Exn) : Prop :=
  (logicalShape s <> shape x /\
   e = Error (shapeMessage (logicalShape s) (shape x))) \/
  (texShape s <> getTextureShapeRC x /\
   e = Error (texShapeMessage (texShape s) (getTextureShapeRC x))).

(** [e] is the error [validateBinaryAndProgram] throws for the pair
    [(s, x)]: the logical-shape error, carrying the captured and the current
    logical shape, when these differ; the texture-shape error, carrying the
    captured and the current texture shape, when the logical shapes agree and
    the texture shapes differ. *)
Definition reportsDifferenceOf (s : ShapeInfo) (x : NDArray) (e : Exn) : Prop :=
  (logicalShape s <> shape x /\
   e = Error (shapeMessage (logicalShape s) (shape x))) \/
  (logicalShape s = shape x /\
   texShape s <> getTextureShapeRC x /\
   e = Error (texShapeMessage (texShape s) (getTextureShapeRC x))).

Definition matchesPair (sx : ShapeInfo * NDArray) : Prop :=
  matches (fst sx) (snd sx).

(** The loop of [validateBinaryAndProgram] read over the two arrays side by
    side; [validateEach_pairs] shows it is the same loop. *)
Fixpoint validatePairs (shapeInfos : list ShapeInfo) (inputs : list NDArray)
  : Completion unit :=
  match shapeInfos, inputs with
  | [], _ => Normal tt
  | _ :: _, [] => Throw (TypeError "Cannot read property 'shape' of undefined")
  | s :: rest, input :: inputs' =>
      if negb (arraysEqual (logicalShape s) (shape input)) then
        Throw (Error (shapeMessage (logicalShape s) (shape input)))
      else if negb (arraysEqual (pairToArray (texShape s))
                      (pairToArray (getTextureShapeRC input)))
      then Throw (Error (texShapeMessage (texShape s) (getTextureShapeRC input)))
      else validatePairs rest inputs'
  end.

(** The calls by which a method checks the program or the framebuffer. *)
Definition isValidation (c : Call) : bool :=
  match c with
  | validateProgram _ => true
  | validateFramebuffer => true
  | _ => false
  end.

(** The draw call, and the calls that read pixels back. *)
Definition isDraw (c : Call) : bool :=
  match c with
  | gl_drawElements_TRIANGLES_6_UNSIGNED_SHORT_0 => true
  | _ => false
  end.

Definition isReadback (c : Call) : bool :=
  match c with
  | downloadMatrixFromOutputTexture _ _ => true
  | downloadMatrixFromPackedOutputTexture _ _ => true
  | _ => false
  end.

Definition isDownload (m : Method) : bool :=
  match m with
  | m_downloadMatrixFromTexture _ _ _ => true
  | m_downloadMatrixFromPackedTexture _ _ _ => true
  | _ => false
  end.

(** The bound-output slot says what is attached to the framebuffer. *)
Definition slotMirrorsFramebuffer (w : World) : Prop :=
  attachedTexture (framebuffer (gpgpu w)) (trace w) = outputTexture (gpgpu w).

(** The public methods that assign [this.program], and the ones that assign
    [this.outputTexture] (directly or through the private driver). *)
Definition assignsProgram (m : Method) : bool :=
  match m with
  | m_setProgram _ => true
  | m_deleteProgram _ => true
  | _ => false
  end.

Definition assignsOutputTexture (m : Method) : bool :=
  match m with
  | m_setOutputMatrixTexture _ _ _ => true
  | m_setOutputPackedMatrixTexture _ _ _ => true
  | m_deleteMatrixTexture _ => true
  | _ => false
  end.

Definition notImplementedMessage : string :=
  "setOutputPackedMatrixWriteRegion not implemented.".

(** What the tests do with a context between its construction and its end:
    bind an output and a program, then delete both and dispose. *)
Definition bindThenTearDown (texture : WebGLTexture) (rows columns : Z)
    (p : WebGLProgram) : M unit :=
  setOutputMatrixTexture texture rows columns ;;
  setProgram (Some p) ;;
  deleteProgram (Some p) ;;
  deleteMatrixTexture texture ;;
  dispose.

(** A descriptor with one more parameter in front. *)
Definition withParam (q : Param) (p : GPGPUProgram) : GPGPUProgram :=
  mkGPGPUProgram (constructor_name p) (variableNames p) (outputShape p)
    (q :: params p) (userCode p) (supportsBroadcasting p).

(** The [{name, shapeInfo}] list [compileProgram] hands to the compiler. *)
Definition inputInfosOf (program : GPGPUProgram) (inputs : list NDArray)
  : list InputInfo :=
  mapi_from 0 (fun input i =>
    mkInputInfo (nth_error (variableNames program) i) (shapeInfoOf input))
    inputs.

(** Two arrays with the same logical and texture shape. *)
Definition sameShapes (x y : NDArray) : Prop := shapeData x = shapeData y.

(* ================================================================== *)
(** ** Properties of [GPGPUContext] *)

Section ContextFacts.

Lemma colorAttachment_app fb l1 l2 acc :
  colorAttachment fb (l1 ++ l2) acc =
  colorAttachment fb l2 (colorAttachment fb l1 acc).
Proof.
  revert acc; induction l1 as [|c l1 IH]; intros acc; [reflexivity|].
  destruct c; simpl; apply IH.
Qed.

Lemma lastViewport_app l1 l2 acc :
  lastViewport (l1 ++ l2) acc = lastViewport l2 (lastViewport l1 acc).
Proof.
  revert acc; induction l1 as [|c l1 IH]; intros acc; [reflexivity|].
  destruct c; simpl; apply IH.
Qed.

Lemma lastScissor_app l1 l2 acc :
  lastScissor (l1 ++ l2) acc = lastScissor l2 (lastScissor l1 acc).
Proof.
  revert acc; induction l1 as [|c l1 IH]; intros acc; [reflexivity|].
  destruct c; simpl; apply IH.
Qed.

Lemma warnings_app l1 l2 : warnings (l1 ++ l2) = warnings l1 ++ warnings l2.
Proof. unfold warnings. apply flat_map_app. Qed.

End ContextFacts.

(** Symbolic execution of a method body on a world whose fields are known. *)
Ltac open_world w :=
  let c := fresh "c" in
  destruct w as [c ? ? ?]; destruct c; simpl in *; subst.

Ltac step :=
  cbv [dispose enableAutomaticDebugValidation gpgpu_context.createMatrixTexture
       gpgpu_context.uploadPixelDataToTexture
       gpgpu_context.createPackedMatrixTexture deleteMatrixTexture
       gpgpu_context.uploadMatrixToTexture
       gpgpu_context.uploadMatrixToPackedTexture downloadMatrixDriver
       downloadMatrixFromTexture downloadMatrixFromPackedTexture
       gpgpu_context.createProgram deleteProgram setProgram getUniformLocation
       setInputMatrixTexture setOutputMatrixTextureDriver setOutputMatrixTexture
       setOutputPackedMatrixTexture setOutputMatrixWriteRegionDriver
       setOutputMatrixWriteRegion setOutputPackedMatrixWriteRegion debugValidate
       executeProgram blockUntilAllProgramsCompleted throwIfDisposed
       throwIfNoProgram invoke returning
       bind ret throw get modify call alloc readback when isSome
       set_outputTexture set_program set_disposed set_autoDebugValidate
       gpgpu trace fresh readPixels after
       vertexBuffer indexBuffer framebuffer outputTexture gpgpu_context.program
       disposed autoDebugValidate fst snd].

Section MethodFacts.

Lemma bind_normal {A B} (m : M A) (k : A -> M B) (w : World) a w' :
  m w = (Normal a, w') -> bind m k w = k a w'.
Proof. intros H. unfold bind. rewrite H. reflexivity. Qed.

Lemma bind_throw {A B} (m : M A) (k : A -> M B) (w : World) e w' :
  m w = (Throw e, w') -> bind m k w = (Throw e, w').
Proof. intros H. unfold bind. rewrite H. reflexivity. Qed.

Lemma after_nil_ret (w : World) : ret tt w = (Normal tt, w).
Proof. reflexivity. Qed.

Lemma after_nil (w : World) : after w (gpgpu w) [] = w.
Proof. destruct w. unfold after; simpl. rewrite app_nil_r. reflexivity. Qed.

Lemma after_after (w : World) c1 l1 c2 l2 :
  after (after w c1 l1) c2 l2 = after w c2 (l1 ++ l2).
Proof. unfold after; simpl. rewrite app_assoc. reflexivity. Qed.

Lemma setOutputMatrixTextureDriver_live (w : World) texture width height :
  disposed (gpgpu w) = false ->
  setOutputMatrixTextureDriver texture width height w =
    (Normal tt,
     after w (set_outputTexture (Some texture) (gpgpu w))
       (outputBindingCalls (gpgpu w) texture width height)).
Proof.
  intros Hlive. open_world w. unfold outputBindingCalls. step.
  destruct autoDebugValidate0; simpl; rewrite <- ?app_assoc; reflexivity.
Qed.

Lemma setProgram_live (w : World) (p : WebGLProgram) :
  disposed (gpgpu w) = false ->
  setProgram (Some p) w =
    (Normal tt,
     after w (set_program (Some p) (gpgpu w)) (programBindingCalls (gpgpu w) p)).
Proof.
  intros Hlive. open_world w. unfold programBindingCalls. step.
  destruct autoDebugValidate0; simpl; rewrite <- ?app_assoc; reflexivity.
Qed.

Lemma setInputMatrixTexture_live (w : World) (p : WebGLProgram) texture
    uniformName textureUnit :
  disposed (gpgpu w) = false ->
  gpgpu_context.program (gpgpu w) = Some p ->
  setInputMatrixTexture texture uniformName textureUnit w =
    (Normal tt,
     after w (gpgpu w)
       [bindTextureToProgramUniformSampler (Some p) texture uniformName
          textureUnit]).
Proof. intros Hlive Hp. open_world w. reflexivity. Qed.

Lemma executeProgram_live (w : World) (p : WebGLProgram) :
  disposed (gpgpu w) = false ->
  gpgpu_context.program (gpgpu w) = Some p ->
  executeProgram w = (Normal tt, after w (gpgpu w) (executeCalls (gpgpu w) p)).
Proof.
  intros Hlive Hp. open_world w. unfold executeCalls. step.
  destruct autoDebugValidate0; simpl; rewrite <- ?app_assoc; reflexivity.
Qed.

Lemma createProgram_live (w : World) (source : string) :
  disposed (gpgpu w) = false ->
  gpgpu_context.createProgram source w =
    (Normal (S (S (fresh w))),
     mkWorld (gpgpu w)
       (trace w ++ createProgramCalls (gpgpu w) (fresh w) source)
       (S (S (S (fresh w)))) (readPixels w)).
Proof.
  intros Hlive. open_world w. unfold createProgramCalls. step.
  destruct autoDebugValidate0; simpl; rewrite <- ?app_assoc; reflexivity.
Qed.

Lemma createProgram_disposed (w : World) (source : string) :
  disposed (gpgpu w) = true ->
  gpgpu_context.createProgram source w = (Throw (Error disposedMessage), w).
Proof. intros Hd. open_world w. reflexivity. Qed.

(** The input loop of [runProgram] on a live context with program [p] active:
    one sampler binding per input, in order, with the variable name and the
    texture unit of its index. *)
Lemma bind_inputs_live (names : list string) (p : WebGLProgram)
    (inputs : list NDArray) :
  forall (i : nat) (w : World),
    disposed (gpgpu w) = false ->
    gpgpu_context.program (gpgpu w) = Some p ->
    forEach_from i (fun input i =>
        setInputMatrixTexture (getTexture input) (nth_error names i) (Z.of_nat i))
      inputs w =
    (Normal tt, after w (gpgpu w) (inputBindingCalls i (Some p) names inputs)).
Proof.
  induction inputs as [|x rest IH]; intros i w Hlive Hp.
  - simpl. unfold ret. rewrite after_nil. reflexivity.
  - cbn [forEach_from]. unfold bind at 1.
    rewrite (setInputMatrixTexture_live w p) by assumption.
    rewrite IH by assumption.
    rewrite after_after. reflexivity.
Qed.

End MethodFacts.

(** C8.  On a live context, [setOutputMatrixTexture(texture, rows, columns)]
    attaches [texture] to the framebuffer as render target, records it as the
    bound output texture, and sets both the viewport and the scissor
    rectangle to the origin with width [columns] and height [rows]: the
    logical (rows, columns) order is inverted into (width, height).  In
    debug mode the framebuffer is validated right after the attach. *)
Theorem setOutputMatrixTexture_inverts_rows_columns :
  forall (w : World) (texture : WebGLTexture) (rows columns : Z),
    disposed (gpgpu w) = false ->
    let c := gpgpu w in
    let w' := snd (setOutputMatrixTexture texture rows columns w) in
    setOutputMatrixTexture texture rows columns w =
      (Normal tt,
       after w (set_outputTexture (Some texture) c)
         ([bindColorTextureToFramebuffer texture (framebuffer c)] ++
          (if autoDebugValidate c then [validateFramebuffer] else []) ++
          [gl_viewport 0 0 columns rows; gl_scissor 0 0 columns rows])) /\
    outputTexture (gpgpu w') = Some texture /\
    attachedTexture (framebuffer c) (trace w') = Some texture /\
    lastViewport (trace w') None = Some (0, 0, columns, rows)%Z /\
    lastScissor (trace w') None = Some (0, 0, columns, rows)%Z.
Proof.
  intros w texture rows columns Hlive c w'.
  assert (E : setOutputMatrixTexture texture rows columns w =
              (Normal tt,
               after w (set_outputTexture (Some texture) c)
                 ([bindColorTextureToFramebuffer texture (framebuffer c)] ++
                  (if autoDebugValidate c then [validateFramebuffer] else []) ++
                  [gl_viewport 0 0 columns rows; gl_scissor 0 0 columns rows]))).
  { exact (setOutputMatrixTextureDriver_live w texture columns rows Hlive). }
  subst w'. rewrite E. split; [reflexivity|]. split; [reflexivity|].
  unfold attachedTexture, after; simpl.
  rewrite colorAttachment_app, lastViewport_app, lastScissor_app.
  destruct (autoDebugValidate c); simpl; rewrite Nat.eqb_refl; auto.
Qed.

Lemma setOutputMatrixTexture_inverts_rows_columns_witness :
  setOutputMatrixTexture 12 2 3 readyWorld =
    (Normal tt,
     after readyWorld (set_outputTexture (Some 12) readyContext)
       [bindColorTextureToFramebuffer 12 3; gl_viewport 0 0 3 2; gl_scissor 0 0 3 2]).
Proof.
  exact (proj1 (setOutputMatrixTexture_inverts_rows_columns readyWorld 12 2 3
                  eq_refl)).
Defined.

(** C10.  On a live context, [downloadMatrixFromTexture] and
    [downloadMatrixFromPackedTexture] attach the texture to read, read back
    while it is attached, and then put the framebuffer back: the bound output
    texture is re-attached when there is one (and the framebuffer re-validated
    in debug mode), otherwise the color attachment is detached.  The context
    object, hence its bound-program and bound-output-texture slots, is the
    same after the download as before. *)
Theorem download_restores_framebuffer :
  forall (w : World) (texture : WebGLTexture) (rows columns : Z),
    disposed (gpgpu w) = false ->
    let c := gpgpu w in
    let fb := framebuffer c in
    let restore :=
      match outputTexture c with
      | Some o => bindColorTextureToFramebuffer o fb ::
                  (if autoDebugValidate c then [validateFramebuffer] else [])
      | None => [unbindColorTextureFromFramebuffer fb]
      end in
    forall (download : WebGLTexture -> Z -> Z -> M Float32Array) (read : Call),
      (download = downloadMatrixFromTexture /\
       read = downloadMatrixFromOutputTexture rows columns) \/
      (download = downloadMatrixFromPackedTexture /\
       read = downloadMatrixFromPackedOutputTexture rows columns) ->
      let issued := [bindColorTextureToFramebuffer texture fb; read] in
      let w' := snd (download texture rows columns w) in
      download texture rows columns w =
        (Normal (readPixels w (trace w ++ issued)), after w c (issued ++ restore)) /\
      attachedTexture fb (trace w') = outputTexture c /\
      gpgpu_context.program (gpgpu w') = gpgpu_context.program c /\
      outputTexture (gpgpu w') = outputTexture c.
Proof.
  intros w texture rows columns Hlive c fb restore download read Hd issued w'.
  assert (E : download texture rows columns w =
              (Normal (readPixels w (trace w ++ issued)),
               after w c (issued ++ restore))).
  { subst c fb restore issued w'.
    destruct Hd as [[-> ->] | [-> ->]]; open_world w; step;
      destruct outputTexture0; [destruct autoDebugValidate0| | destruct autoDebugValidate0|];
      simpl; rewrite <- ?app_assoc; reflexivity. }
  subst w'. rewrite E. split; [reflexivity|].
  split; [|split; reflexivity].
  unfold attachedTexture, after; simpl.
  rewrite colorAttachment_app. subst issued restore.
  destruct Hd as [[_ ->] | [_ ->]];
    (destruct (outputTexture c); [destruct (autoDebugValidate c)|]);
    simpl; rewrite ?Nat.eqb_refl; reflexivity.
Qed.

Lemma download_restores_framebuffer_witness :
  let w := snd (setOutputMatrixTexture 12 2 2 readyWorld) in
  attachedTexture 3 (trace (snd (downloadMatrixFromTexture 10 2 2 w))) = Some 12 /\
  attachedTexture 3
    (trace (snd (downloadMatrixFromPackedTexture 10 2 2 readyWorld))) = None.
Proof.
  split.
  - exact (proj1 (proj2 (download_restores_framebuffer
             (snd (setOutputMatrixTexture 12 2 2 readyWorld)) 10 2 2 eq_refl
             downloadMatrixFromTexture (downloadMatrixFromOutputTexture 2 2)
             (or_introl (conj eq_refl eq_refl))))).
  - exact (proj1 (proj2 (download_restores_framebuffer readyWorld 10 2 2 eq_refl
             downloadMatrixFromPackedTexture
             (downloadMatrixFromPackedOutputTexture 2 2)
             (or_intror (conj eq_refl eq_refl))))).
Defined.

(** C6, as amended.  On a live (not disposed) context: [deleteProgram]
    applied to the active program clears the bound-program slot and then
    deletes the program; [deleteMatrixTexture] applied to the bound output
    texture detaches it from the framebuffer, clears the bound-output slot and
    then deletes the texture. *)
Theorem delete_clears_bound_slot :
  forall (w : World),
    disposed (gpgpu w) = false ->
    let c := gpgpu w in
    (forall p : WebGLProgram,
        gpgpu_context.program c = Some p ->
        deleteProgram (Some p) w =
          (Normal tt, after w (set_program None c) [gl_deleteProgram p])) /\
    (forall t : WebGLTexture,
        outputTexture c = Some t ->
        deleteMatrixTexture t w =
          (Normal tt,
           after w (set_outputTexture None c)
             [unbindColorTextureFromFramebuffer (framebuffer c);
              gl_deleteTexture t]) /\
        attachedTexture (framebuffer c)
          (trace (snd (deleteMatrixTexture t w))) = None).
Proof.
  intros w Hlive c. subst c. split.
  - intros p Hp. open_world w. step.
    unfold option_nat_eqb. rewrite Nat.eqb_refl. reflexivity.
  - intros t Ht.
    assert (E : deleteMatrixTexture t w =
                (Normal tt,
                 after w (set_outputTexture None (gpgpu w))
                   [unbindColorTextureFromFramebuffer (framebuffer (gpgpu w));
                    gl_deleteTexture t])).
    { open_world w. step. unfold option_nat_eqb. rewrite Nat.eqb_refl.
      simpl. rewrite <- app_assoc. reflexivity. }
    rewrite E. split; [reflexivity|].
    unfold attachedTexture, after; simpl. rewrite colorAttachment_app.
    simpl. rewrite Nat.eqb_refl. reflexivity.
Qed.

Lemma delete_clears_bound_slot_witness :
  deleteProgram (Some 6) boundWorld =
    (Normal tt,
     after boundWorld (set_program None (gpgpu boundWorld)) [gl_deleteProgram 6]) /\
  deleteMatrixTexture 12 boundWorld =
    (Normal tt,
     after boundWorld (set_outputTexture None (gpgpu boundWorld))
       [unbindColorTextureFromFramebuffer 3; gl_deleteTexture 12]).
Proof.
  split.
  - exact (proj1 (delete_clears_bound_slot boundWorld eq_refl) 6 eq_refl).
  - exact (proj1 (proj2 (delete_clears_bound_slot boundWorld eq_refl) 12 eq_refl)).
Defined.

(** C6, the claim as stated fails on a disposed context: with program 6 and
    texture 12 still bound, [deleteProgram(6)] and [deleteMatrixTexture(12)]
    throw the disposed-context error and both slots keep their handles. *)
Lemma delete_on_disposed_context_keeps_slot :
  disposed (gpgpu leakyDisposedWorld) = true /\
  gpgpu_context.program (gpgpu leakyDisposedWorld) = Some 6 /\
  outputTexture (gpgpu leakyDisposedWorld) = Some 12 /\
  deleteProgram (Some 6) leakyDisposedWorld =
    (Throw (Error disposedMessage), leakyDisposedWorld) /\
  deleteMatrixTexture 12 leakyDisposedWorld =
    (Throw (Error disposedMessage), leakyDisposedWorld) /\
  gpgpu_context.program (gpgpu (snd (deleteProgram (Some 6) leakyDisposedWorld)))
    <> None /\
  outputTexture (gpgpu (snd (deleteMatrixTexture 12 leakyDisposedWorld)))
    <> None.
Proof.
  repeat split; try reflexivity; discriminate.
Qed.

(** C5.  Disposing a live context never throws, whatever is still bound: it
    issues one [console.warn] for a bound program and one for a bound output
    texture (so as many diagnostics as there are bound resources, and none
    otherwise), then finishes, deletes the framebuffer, the vertex buffer and
    the index buffer, loses the context, and marks the context disposed. *)
Theorem dispose_warns_once_per_bound_resource :
  forall (w : World),
    disposed (gpgpu w) = false ->
    let c := gpgpu w in
    dispose w =
      (Normal tt, after w (set_disposed true c) (leakCalls c ++ releaseCalls c)) /\
    warnings (leakCalls c ++ releaseCalls c) =
      (if isSome (gpgpu_context.program c) then [programLeakWarning] else []) ++
      (if isSome (outputTexture c) then [outputTextureLeakWarning] else []) /\
    length (warnings (leakCalls c ++ releaseCalls c)) = boundResources c /\
    In (gl_deleteFramebuffer (framebuffer c)) (releaseCalls c) /\
    In (gl_deleteBuffer (vertexBuffer c)) (releaseCalls c) /\
    In (gl_deleteBuffer (indexBuffer c)) (releaseCalls c) /\
    disposed (gpgpu (snd (dispose w))) = true.
Proof.
  intros w Hlive c.
  assert (E : dispose w =
              (Normal tt,
               after w (set_disposed true c) (leakCalls c ++ releaseCalls c))).
  { subst c. open_world w. unfold leakCalls, releaseCalls. step.
    destruct program0, outputTexture0; simpl;
      rewrite <- ?app_assoc; reflexivity. }
  rewrite E. split; [reflexivity|].
  assert (W : warnings (leakCalls c ++ releaseCalls c) =
              (if isSome (gpgpu_context.program c) then [programLeakWarning] else []) ++
              (if isSome (outputTexture c) then [outputTextureLeakWarning] else [])).
  { rewrite warnings_app. unfold leakCalls.
    destruct (gpgpu_context.program c), (outputTexture c); reflexivity. }
  rewrite W. split; [reflexivity|]. split.
  { unfold boundResources.
    destruct (gpgpu_context.program c), (outputTexture c); reflexivity. }
  unfold releaseCalls; simpl. intuition.
Qed.

Lemma dispose_warns_once_per_bound_resource_witness :
  dispose boundWorld =
    (Normal tt,
     after boundWorld (set_disposed true (gpgpu boundWorld))
       ([console_warn programLeakWarning; console_warn outputTextureLeakWarning] ++
        releaseCalls (gpgpu boundWorld))).
Proof.
  exact (proj1 (dispose_warns_once_per_bound_resource boundWorld eq_refl)).
Defined.

(** C4, as amended.  Every public method other than
    [enableAutomaticDebugValidation], [debugValidate] and
    [setOutputPackedMatrixWriteRegion] throws the disposed-context error,
    synchronously and without touching anything, when invoked on a disposed
    context; no method makes a disposed context live again; and on a live
    context with no program bound, [getUniformLocation],
    [setInputMatrixTexture] and [executeProgram] throw the no-program error
    without touching anything. *)
Theorem disposed_context_rejects_methods :
  forall (getPackedMatrixTextureShapeWidthHeight : Z -> Z -> Z * Z)
         (m : Method) (w : World),
    let invoke := invoke getPackedMatrixTextureShapeWidthHeight in
    (disposed (gpgpu w) = true ->
       (checksDisposed m = true ->
          invoke m w = (Throw (Error disposedMessage), w)) /\
       disposed (gpgpu (snd (invoke m w))) = true) /\
    (disposed (gpgpu w) = false ->
     gpgpu_context.program (gpgpu w) = None ->
     needsProgram m = true ->
       invoke m w = (Throw (Error noProgramMessage), w)).
Proof.
  intros f m w inv; subst inv. split.
  - intros Hd. open_world w. split.
    + intros Hc. destruct m; try discriminate Hc; reflexivity.
    + destruct m; try reflexivity.
      step. destruct program0; reflexivity.
  - intros Hlive Hnone Hneeds. open_world w.
    destruct m; try discriminate Hneeds; reflexivity.
Qed.

Lemma disposed_context_rejects_methods_witness :
  invoke (fun rows columns => (columns, rows)) m_executeProgram leakyDisposedWorld =
    (Throw (Error disposedMessage), leakyDisposedWorld) /\
  invoke (fun rows columns => (columns, rows)) m_executeProgram readyWorld =
    (Throw (Error noProgramMessage), readyWorld).
Proof.
  split.
  - exact (proj1 (proj1 (disposed_context_rejects_methods
                           (fun rows columns => (columns, rows))
                           m_executeProgram leakyDisposedWorld) eq_refl) eq_refl).
  - exact (proj2 (disposed_context_rejects_methods
                    (fun rows columns => (columns, rows))
                    m_executeProgram readyWorld) eq_refl eq_refl eq_refl).
Defined.

(** C4, the claim as stated fails: on a disposed context the public methods
    [enableAutomaticDebugValidation] and [debugValidate] do not fail fast.
    Neither looks at the disposed flag: the first sets the debug flag, toggles
    the host's error checking and returns; the second goes on to the host's
    validation helpers.  [setOutputPackedMatrixWriteRegion] throws its
    not-implemented error, not the disposed-context one. *)
Lemma unguarded_methods_on_disposed_context :
  let invoke := invoke (fun rows columns => (columns, rows)) in
  disposed (gpgpu leakyDisposedWorld) = true /\
  invoke (m_enableAutomaticDebugValidation true) leakyDisposedWorld =
    (Normal r_void,
     after leakyDisposedWorld
       (set_autoDebugValidate true (gpgpu leakyDisposedWorld))
       [enableDebugWebGLErrorChecking true]) /\
  invoke m_debugValidate leakyDisposedWorld =
    (Normal r_void,
     after leakyDisposedWorld (gpgpu leakyDisposedWorld)
       [validateProgram 6; validateFramebuffer]) /\
  invoke (m_setOutputPackedMatrixWriteRegion 0 1 0 1) leakyDisposedWorld =
    (Throw (Error "setOutputPackedMatrixWriteRegion not implemented."),
     leakyDisposedWorld).
Proof.
  repeat split.
Qed.

(* ================================================================== *)
(** ** Properties of [validateBinaryAndProgram] and [runProgram] *)

Section ValidationFacts.

Lemma arraysEqual_eq (n1 n2 : list Z) : arraysEqual n1 n2 = true <-> n1 = n2.
Proof.
  revert n2; induction n1 as [|a r1 IH]; intros [|b r2]; simpl;
    try (split; (discriminate || reflexivity)).
  rewrite andb_true_iff, Z.eqb_eq, IH. split.
  - intros [-> ->]; reflexivity.
  - intros [= -> ->]; auto.
Qed.

Lemma arraysEqual_neq (n1 n2 : list Z) : arraysEqual n1 n2 = false <-> n1 <> n2.
Proof.
  rewrite <- arraysEqual_eq. destruct (arraysEqual n1 n2); split; congruence.
Qed.

Lemma pairToArray_inj (p q : Z * Z) : pairToArray p = pairToArray q -> p = q.
Proof. destruct p, q; unfold pairToArray; simpl; intros [= -> ->]; reflexivity. Qed.

(** The indexed loop of the source and the side-by-side loop agree. *)
Lemma validateEach_pairs (shapeInfos : list ShapeInfo) :
  forall (seen inputs : list NDArray),
    validateEach (length seen) shapeInfos (seen ++ inputs) =
    validatePairs shapeInfos inputs.
Proof.
  induction shapeInfos as [|s rest IH]; intros seen inputs; [reflexivity|].
  cbn [validateEach validatePairs].
  rewrite nth_error_app2, Nat.sub_diag by lia.
  destruct inputs as [|x inputs']; cbn [nth_error]; [reflexivity|].
  destruct (arraysEqual (logicalShape s) (shape x)); cbn [negb]; [|reflexivity].
  destruct (arraysEqual (pairToArray (texShape s))
              (pairToArray (getTextureShapeRC x))); cbn [negb]; [|reflexivity].
  specialize (IH (seen ++ [x]) inputs').
  rewrite length_app, Nat.add_1_r, <- app_assoc in IH. exact IH.
Qed.

Lemma validateBinaryAndProgram_same_arity shapeInfos inputs :
  length inputs = length shapeInfos ->
  validateBinaryAndProgram shapeInfos inputs = validatePairs shapeInfos inputs.
Proof.
  intros H. unfold validateBinaryAndProgram.
  rewrite H, Nat.eqb_refl. simpl. exact (validateEach_pairs shapeInfos [] inputs).
Qed.

(** With equal lengths the loop either accepts, and then every pair matches,
    or throws the shape error of a pair that differs. *)
Lemma validatePairs_cases (shapeInfos : list ShapeInfo) :
  forall inputs : list NDArray,
    length inputs = length shapeInfos ->
    (validatePairs shapeInfos inputs = Normal tt /\
     Forall2 matches shapeInfos inputs) \/
    (exists s x e, In (s, x) (combine shapeInfos inputs) /\
                   namesShapesOf s x e /\
                   validatePairs shapeInfos inputs = Throw e).
Proof.
  induction shapeInfos as [|s rest IH]; intros [|x inputs] Hlen;
    try discriminate Hlen.
  - left; split; [reflexivity | constructor].
  - simpl in Hlen. injection Hlen as Hlen. cbn [validatePairs combine].
    destruct (arraysEqual (logicalShape s) (shape x)) eqn:E1; cbn [negb].
    2:{ right. exists s, x, (Error (shapeMessage (logicalShape s) (shape x))).
        split; [left; reflexivity|]. split; [|reflexivity].
        left. split; [apply arraysEqual_neq; exact E1 | reflexivity]. }
    destruct (arraysEqual (pairToArray (texShape s))
                (pairToArray (getTextureShapeRC x))) eqn:E2; cbn [negb].
    2:{ right.
        exists s, x, (Error (texShapeMessage (texShape s) (getTextureShapeRC x))).
        split; [left; reflexivity|]. split; [|reflexivity].
        right. split; [|reflexivity].
        intros Heq. apply arraysEqual_neq in E2. apply E2. now rewrite Heq. }
    apply arraysEqual_eq in E1. apply arraysEqual_eq, pairToArray_inj in E2.
    destruct (IH inputs Hlen) as [[Hok Hall] | (s' & x' & e & Hin & Hn & Ht)].
    + left. split; [exact Hok|]. constructor; [split; assumption | exact Hall].
    + right. exists s', x', e. split; [right; exact Hin|]. split; assumption.
Qed.

Lemma validatePairs_matches shapeInfos inputs :
  Forall2 matches shapeInfos inputs -> validatePairs shapeInfos inputs = Normal tt.
Proof.
  induction 1 as [|s x ss xs [H1 H2] _ IH]; [reflexivity|].
  cbn [validatePairs]. rewrite H1, H2.
  rewrite (proj2 (arraysEqual_eq (shape x) (shape x)) eq_refl).
  rewrite (proj2 (arraysEqual_eq (pairToArray (getTextureShapeRC x))
                    (pairToArray (getTextureShapeRC x))) eq_refl).
  exact IH.
Qed.

Lemma validateBinaryAndProgram_matches shapeInfos inputs :
  Forall2 matches shapeInfos inputs ->
  validateBinaryAndProgram shapeInfos inputs = Normal tt.
Proof.
  intros H. rewrite validateBinaryAndProgram_same_arity.
  - apply validatePairs_matches; exact H.
  - symmetry. eapply Forall2_length; exact H.
Qed.

Lemma Forall2_matches_no_differs shapeInfos inputs :
  Forall2 matches shapeInfos inputs ->
  ~ Exists differs (combine shapeInfos inputs).
Proof.
  induction 1 as [|s x ss xs Hm _ IH]; simpl; intros HE; inversion HE; subst.
  - apply H0. exact Hm.
  - apply IH; assumption.
Qed.

Lemma namesShapesOf_differs s x e : namesShapesOf s x e -> differs (s, x).
Proof. intros [[H _] | [H _]] [H1 H2]; simpl in *; contradiction. Qed.

Lemma reportsDifferenceOf_names s x e :
  reportsDifferenceOf s x e -> namesShapesOf s x e.
Proof. intros [[H1 H2] | [_ [H1 H2]]]; [left | right]; auto. Qed.

Lemma reportsDifferenceOf_differs s x e :
  reportsDifferenceOf s x e -> differs (s, x).
Proof.
  intros H. exact (namesShapesOf_differs _ _ _ (reportsDifferenceOf_names _ _ _ H)).
Qed.

(** With equal lengths the loop either accepts, and then every pair matches,
    or stops at the first pair that differs and throws its error. *)
Lemma validatePairs_first (shapeInfos : list ShapeInfo) :
  forall inputs : list NDArray,
    length inputs = length shapeInfos ->
    (validatePairs shapeInfos inputs = Normal tt /\
     Forall2 matches shapeInfos inputs) \/
    (exists before s x rest e,
        combine shapeInfos inputs = before ++ (s, x) :: rest /\
        Forall matchesPair before /\
        reportsDifferenceOf s x e /\
        validatePairs shapeInfos inputs = Throw e).
Proof.
  induction shapeInfos as [|s rest IH]; intros [|x inputs] Hlen;
    try discriminate Hlen.
  - left; split; [reflexivity | constructor].
  - simpl in Hlen. injection Hlen as Hlen. cbn [validatePairs combine].
    destruct (arraysEqual (logicalShape s) (shape x)) eqn:E1; cbn [negb].
    2:{ right.
        exists [], s, x, (combine rest inputs),
          (Error (shapeMessage (logicalShape s) (shape x))).
        split; [reflexivity|]. split; [constructor|]. split; [|reflexivity].
        left. split; [apply arraysEqual_neq; exact E1 | reflexivity]. }
    apply arraysEqual_eq in E1.
    destruct (arraysEqual (pairToArray (texShape s))
                (pairToArray (getTextureShapeRC x))) eqn:E2; cbn [negb].
    2:{ right.
        exists [], s, x, (combine rest inputs),
          (Error (texShapeMessage (texShape s) (getTextureShapeRC x))).
        split; [reflexivity|]. split; [constructor|]. split; [|reflexivity].
        right. split; [exact E1|]. split; [|reflexivity].
        intros Heq. apply arraysEqual_neq in E2. apply E2. now rewrite Heq. }
    apply arraysEqual_eq, pairToArray_inj in E2.
    destruct (IH inputs Hlen)
      as [[Hok Hall] | (before & s' & x' & rest' & e & Hc & Hb & Hn & Ht)].
    + left. split; [exact Hok|]. constructor; [split; assumption | exact Hall].
    + right. exists ((s, x) :: before), s', x', rest', e.
      split; [simpl; rewrite Hc; reflexivity|].
      split; [constructor; [split; assumption | exact Hb]|].
      split; assumption.
Qed.

Lemma Forall2_matches_pairs shapeInfos inputs :
  Forall2 matches shapeInfos inputs ->
  Forall matchesPair (combine shapeInfos inputs).
Proof.
  induction 1 as [|s x ss xs Hm _ IH]; simpl; constructor; assumption.
Qed.

End ValidationFacts.

(** C9.  A binary compiled with N inputs and executed with M inputs,
    M different from N, makes [runProgram] throw the error that reports both
    counts, whatever the shapes of the inputs and of the output are (no shape
    is compared) and with the world exactly as it was (nothing is bound). *)
Theorem runProgram_rejects_wrong_arity :
  forall (binary : GPGPUBinary) (inputs : list NDArray) (output : NDArray)
         (customSetup : option (M unit)) (w : World),
    length inputs <> length (inShapeInfos binary) ->
    validateBinaryAndProgram (inShapeInfos binary) inputs =
      Throw (Error (arityMessage (length (inShapeInfos binary)) (length inputs))) /\
    runProgram binary inputs output customSetup w =
      (Throw (Error (arityMessage (length (inShapeInfos binary)) (length inputs))),
       w).
Proof.
  intros binary inputs output customSetup w Hlen.
  assert (E : validateBinaryAndProgram (inShapeInfos binary) inputs =
              Throw (Error (arityMessage (length (inShapeInfos binary))
                              (length inputs)))).
  { unfold validateBinaryAndProgram.
    destruct (Nat.eqb_spec (length (inShapeInfos binary)) (length inputs));
      [congruence | reflexivity]. }
  split; [exact E|].
  unfold runProgram, bind, lift. rewrite E. reflexivity.
Qed.

Lemma runProgram_rejects_wrong_arity_witness :
  runProgram sampleBinary [arrayV] arrayOut None readyWorld =
    (Throw (Error "Binary was compiled with 2 inputs, but was executed with 1 inputs"),
     readyWorld).
Proof.
  refine (proj2 (runProgram_rejects_wrong_arity sampleBinary [arrayV] arrayOut
                   None readyWorld _)).
  simpl. lia.
Defined.

(** C1, as amended.  When the input list has the arity the binary was
    compiled with and some compared pair differs (an input against the
    snapshot at its index, or the output against the output snapshot),
    [runProgram] throws the shape error of a pair that differs, namely of the
    first one in the order inputs then output: the message carries the
    captured and the current logical shape when these differ, and the
    captured and the current texture shape when the logical shapes agree and
    the texture shapes differ.  The world is returned exactly as it was
    received: no call was issued and no slot written, so whatever runs next
    starts from the state it would have started from anyway. *)
Theorem runProgram_rejects_changed_shapes :
  forall (binary : GPGPUBinary) (inputs : list NDArray) (output : NDArray)
         (customSetup : option (M unit)) (w : World),
    length inputs = length (inShapeInfos binary) ->
    Exists differs (comparedPairs binary inputs output) ->
    exists (s : ShapeInfo) (x : NDArray) (e : Exn),
      In (s, x) (comparedPairs binary inputs output) /\
      differs (s, x) /\
      reportsDifferenceOf s x e /\
      runProgram binary inputs output customSetup w = (Throw e, w) /\
      exists before rest : list (ShapeInfo * NDArray),
        comparedPairs binary inputs output = before ++ (s, x) :: rest /\
        Forall matchesPair before.
Proof.
  intros binary inputs output customSetup w Hlen Hdiff.
  unfold comparedPairs in *.
  destruct (validatePairs_first (inShapeInfos binary) inputs Hlen)
    as [[Hok Hall] | (before & s & x & rest & e & Hc & Hb & Hn & Ht)].
  - apply Exists_app in Hdiff. destruct Hdiff as [Hdiff | Hdiff].
    { exfalso. exact (Forall2_matches_no_differs _ _ Hall Hdiff). }
    destruct (validatePairs_first [outShapeInfo binary] [output] eq_refl)
      as [[Hok' Hall'] | (before & s & x & rest & e & Hc & Hb & Hn & Ht)].
    { exfalso. inversion Hall'; subst.
      inversion Hdiff as [? ? Hd | ? ? Hd]; subst; [|inversion Hd].
      apply Hd. assumption. }
    assert (Hsx : before = [] /\ (s, x) = (outShapeInfo binary, output) /\
                  rest = []).
    { simpl in Hc. destruct before as [|b before]; simpl in Hc.
      - injection Hc as <- <- <-. auto.
      - injection Hc as _ Hc. destruct before; discriminate Hc. }
    destruct Hsx as (-> & Hsx & ->). injection Hsx as -> ->.
    exists (outShapeInfo binary), output, e.
    split; [apply in_or_app; right; left; reflexivity|].
    split; [exact (reportsDifferenceOf_differs _ _ _ Hn)|]. split; [exact Hn|].
    split.
    + unfold runProgram, bind, lift.
      rewrite validateBinaryAndProgram_same_arity by exact Hlen. rewrite Hok.
      rewrite validateBinaryAndProgram_same_arity by reflexivity. rewrite Ht.
      reflexivity.
    + exists (combine (inShapeInfos binary) inputs), [].
      split; [reflexivity | exact (Forall2_matches_pairs _ _ Hall)].
  - exists s, x, e.
    split; [apply in_or_app; left; rewrite Hc; apply in_elt|].
    split; [exact (reportsDifferenceOf_differs _ _ _ Hn)|]. split; [exact Hn|].
    split.
    + unfold runProgram, bind, lift.
      rewrite validateBinaryAndProgram_same_arity by exact Hlen. rewrite Ht.
      reflexivity.
    + exists before, (rest ++ [(outShapeInfo binary, output)]).
      split; [rewrite Hc, <- app_assoc; reflexivity | exact Hb].
Qed.

Lemma runProgram_rejects_changed_shapes_witness :
  exists (s : ShapeInfo) (x : NDArray) (e : Exn),
    In (s, x) (comparedPairs sampleBinary [arrayA; arrayV] arrayOut) /\
    differs (s, x) /\
    reportsDifferenceOf s x e /\
    runProgram sampleBinary [arrayA; arrayV] arrayOut None readyWorld =
      (Throw e, readyWorld) /\
    exists before rest : list (ShapeInfo * NDArray),
      comparedPairs sampleBinary [arrayA; arrayV] arrayOut =
        before ++ (s, x) :: rest /\
      Forall matchesPair before.
Proof.
  refine (runProgram_rejects_changed_shapes sampleBinary [arrayA; arrayV]
            arrayOut None readyWorld eq_refl _).
  apply Exists_cons_tl, Exists_cons_hd.
  unfold differs, matches; simpl. intros [H _]; discriminate H.
Defined.

(** C1, the claim as stated fails for an input list of another arity: the
    binary below was compiled for one input of shape [2,2]; run with two
    inputs, the first of shape [3], the pair at index 0 differs, yet the error
    thrown is the arity error, which names no shape. *)
Lemma runProgram_arity_error_names_no_shape :
  ~ (forall (binary : GPGPUBinary) (inputs : list NDArray) (output : NDArray)
            (customSetup : option (M unit)) (w : World),
        Exists differs (comparedPairs binary inputs output) ->
        exists (s : ShapeInfo) (x : NDArray) (e : Exn),
          In (s, x) (comparedPairs binary inputs output) /\
          namesShapesOf s x e /\
          runProgram binary inputs output customSetup w = (Throw e, w)).
Proof.
  intros H.
  destruct (H (mkGPGPUBinary 6 sampleProgram "void main() {}"
                 [shapeInfoOf arrayA] (shapeInfoOf arrayOut))
              [arrayV; arrayB] arrayOut None readyWorld)
    as (s & x & e & _ & Hn & Hrun).
  { apply Exists_cons_hd. unfold differs, matches; simpl.
    intros [H1 _]; discriminate H1. }
  assert (E : e = Error "Binary was compiled with 1 inputs, but was executed with 2 inputs").
  { cbv in Hrun. injection Hrun as Hrun. symmetry. exact Hrun. }
  subst e. unfold namesShapesOf, shapeMessage, texShapeMessage in Hn.
  destruct Hn as [[_ Hn] | [_ Hn]]; simpl in Hn; discriminate Hn.
Qed.

(** C2.  When every input and the output match the snapshot of the binary,
    [runProgram] on a live context issues, in this order: the binding of the
    output texture as render target (viewport and scissor set to its
    texture shape), the binding of the binary's program as the active one,
    and one sampler binding per input, in the order of the input list, each
    under the variable name and texture unit of its index.  The setup hook,
    when supplied, runs next on the world so prepared, and [executeProgram]
    runs after it; without a hook the draw follows directly. *)
Theorem runProgram_binds_then_executes :
  forall (binary : GPGPUBinary) (inputs : list NDArray) (output : NDArray)
         (w : World),
    Forall2 matches (inShapeInfos binary) inputs ->
    matches (outShapeInfo binary) output ->
    disposed (gpgpu w) = false ->
    let c := gpgpu w in
    let p := webGLProgram binary in
    let names := variableNames (program binary) in
    let bound :=
      after w
        (set_program (Some p) (set_outputTexture (Some (getTexture output)) c))
        (outputBindingCalls c (getTexture output)
           (snd (getTextureShapeRC output)) (fst (getTextureShapeRC output)) ++
         programBindingCalls c p ++
         inputBindingCalls 0 (Some p) names inputs) in
    (forall setup : M unit,
        runProgram binary inputs output (Some setup) w =
        (setup ;; executeProgram) bound) /\
    runProgram binary inputs output None w =
      (Normal tt, after bound (gpgpu bound) (executeCalls c p)).
Proof.
  intros binary inputs output w Hins Hout Hlive c p names bound.
  assert (Hprefix : forall customSetup : option (M unit),
             runProgram binary inputs output customSetup w =
             (match customSetup with Some setup => setup | None => ret tt end ;;
              executeProgram) bound).
  { intros customSetup.
    assert (H1 : lift (validateBinaryAndProgram (inShapeInfos binary) inputs) w =
                 (Normal tt, w)).
    { unfold lift. rewrite (validateBinaryAndProgram_matches _ _ Hins).
      reflexivity. }
    assert (H2 : lift (validateBinaryAndProgram [outShapeInfo binary] [output]) w =
                 (Normal tt, w)).
    { unfold lift.
      rewrite (validateBinaryAndProgram_matches [outShapeInfo binary] [output])
        by (constructor; [exact Hout | constructor]).
      reflexivity. }
    pose proof (setOutputMatrixTextureDriver_live w (getTexture output)
                  (snd (getTextureShapeRC output))
                  (fst (getTextureShapeRC output)) Hlive) as H3.
    match type of H3 with _ = (_, ?w1) =>
      pose proof (setProgram_live w1 p Hlive) as H4
    end.
    match type of H4 with _ = (_, ?w2) =>
      pose proof (bind_inputs_live names p inputs 0 w2 Hlive eq_refl) as H5
    end.
    unfold runProgram.
    rewrite (bind_normal _ _ _ _ _ H1), (bind_normal _ _ _ _ _ H2).
    unfold setOutputMatrixTexture.
    rewrite (bind_normal _ _ _ _ _ H3), (bind_normal _ _ _ _ _ H4).
    rewrite (bind_normal _ _ _ _ _ H5).
    rewrite !after_after. reflexivity. }
  split.
  - intros setup. exact (Hprefix (Some setup)).
  - rewrite (Hprefix None).
    rewrite (bind_normal _ _ _ _ _ (after_nil_ret bound)).
    rewrite (executeProgram_live bound p) by (exact Hlive || reflexivity).
    reflexivity.
Qed.

Lemma runProgram_binds_then_executes_witness :
  runProgram sampleBinary [arrayA; arrayB] arrayOut None readyWorld =
    (Normal tt,
     after readyWorld (mkGPGPUContext 1 2 3 (Some 12) (Some 6) false false)
       [bindColorTextureToFramebuffer 12 3;
        gl_viewport 0 0 2 2; gl_scissor 0 0 2 2;
        gl_useProgram (Some 6);
        bindTextureToProgramUniformSampler (Some 6) 10 (Some "A") 0;
        bindTextureToProgramUniformSampler (Some 6) 11 (Some "B") 1;
        bindVertexProgramAttributeStreams (Some 6) 1;
        gl_drawElements_TRIANGLES_6_UNSIGNED_SHORT_0]).
Proof.
  refine (proj2 (runProgram_binds_then_executes sampleBinary [arrayA; arrayB]
                   arrayOut readyWorld _ _ eq_refl)).
  - repeat constructor.
  - split; reflexivity.
Defined.

Section CompileFacts.

Variable makeShader :
  list InputInfo -> ShapeInfo -> string -> bool -> Completion string.

Lemma inShapeInfos_of_inputs (names : list string) (inputs : list NDArray) :
  forall i : nat,
    map shapeInfo
      (mapi_from i (fun input i =>
         mkInputInfo (nth_error names i)
           (mkShapeInfo (shape input) (getTextureShapeRC input))) inputs) =
    map shapeInfoOf inputs.
Proof.
  induction inputs as [|x rest IH]; intros i; [reflexivity|].
  simpl. rewrite IH. reflexivity.
Qed.

(** C7.  [compileProgram] hands the shader compiler one [{name, shapeInfo}]
    per input (the variable name of its index, its logical shape and its
    texture shape), the ShapeInfo of the output, the descriptor's user code
    and whether [supportsBroadcasting] is [true].  If the compiler throws,
    that is the outcome and nothing else happened.  If it returns a source,
    then on a live context, whatever was compiled before, the full
    create-attach-link sequence is issued for that source and a new program
    handle comes back; the binary returned holds the descriptor, the source,
    that handle, and as [inShapeInfos]/[outShapeInfo] exactly the shapes the
    inputs and the output have at this call. *)
Theorem compileProgram_always_compiles :
  forall (program : GPGPUProgram) (inputs : list NDArray) (output : NDArray)
         (w : World),
    let inputInfos :=
      mapi_from 0 (fun input i =>
        mkInputInfo (nth_error (variableNames program) i) (shapeInfoOf input))
        inputs in
    let compiled :=
      makeShader inputInfos (shapeInfoOf output) (userCode program)
        (broadcasting program) in
    (forall e, compiled = Throw e ->
       compileProgram makeShader program inputs output w = (Throw e, w)) /\
    (forall source, compiled = Normal source ->
       disposed (gpgpu w) = false ->
       compileProgram makeShader program inputs output w =
         (Normal (mkGPGPUBinary (S (S (fresh w))) program source
                    (map shapeInfoOf inputs) (shapeInfoOf output)),
          mkWorld (gpgpu w)
            (trace w ++ createProgramCalls (gpgpu w) (fresh w) source)
            (S (S (S (fresh w)))) (readPixels w))).
Proof.
  intros program inputs output w inputInfos compiled. split.
  - intros e He. unfold compileProgram, bind, lift.
    fold shapeInfoOf. change (makeShader _ _ _ _) with compiled.
    rewrite He. reflexivity.
  - intros source Hs Hlive. unfold compileProgram.
    unfold bind at 1. unfold lift.
    change (makeShader _ _ _ _) with compiled. rewrite Hs.
    unfold bind. rewrite createProgram_live by exact Hlive.
    unfold ret. rewrite inShapeInfos_of_inputs. reflexivity.
Qed.

End CompileFacts.

Lemma compileProgram_always_compiles_witness :
  let makeShader :=
    fun (_ : list InputInfo) (_ : ShapeInfo) (userCode : string) (_ : bool) =>
      Normal ("void main() {" ++ userCode ++ "}")%string in
  let source := "void main() {setOutput(getA() + getB());}" in
  compileProgram makeShader sampleProgram [arrayA; arrayB] arrayOut readyWorld =
    (Normal (mkGPGPUBinary 6 sampleProgram source
               [shapeInfoOf arrayA; shapeInfoOf arrayB] (shapeInfoOf arrayOut)),
     mkWorld readyContext (createProgramCalls readyContext 4 source) 7
       (readPixels readyWorld)).
Proof.
  exact (proj2 (compileProgram_always_compiles
                  (fun _ _ userCode _ =>
                     Normal ("void main() {" ++ userCode ++ "}")%string)
                  sampleProgram [arrayA; arrayB] arrayOut readyWorld)
               "void main() {setOutput(getA() + getB());}" eq_refl eq_refl).
Defined.

(* ================================================================== *)
(** ** Properties of [makeShaderKey] *)

Section KeyFacts.

Local Open Scope string_scope.

Lemma append_assoc (a b c : string) : (a ++ b) ++ c = a ++ (b ++ c).
Proof. induction a as [|x a IH]; simpl; [reflexivity | now rewrite IH]. Qed.

Lemma append_nil_r (a : string) : a ++ "" = a.
Proof. induction a as [|x a IH]; simpl; [reflexivity | now rewrite IH]. Qed.

Lemma length_append (a b : string) :
  String.length (a ++ b) = (String.length a + String.length b)%nat.
Proof. induction a as [|x a IH]; simpl; [reflexivity | now rewrite IH]. Qed.

Lemma append_inv_head (p a b : string) : p ++ a = p ++ b -> a = b.
Proof. induction p as [|x p IH]; simpl; [auto | intros [= H]; auto]. Qed.

Lemma append_inv_tail (t : string) :
  forall a b : string, a ++ t = b ++ t -> a = b.
Proof.
  induction a as [|x a IH]; intros [|y b] H; simpl in H.
  - reflexivity.
  - exfalso. apply (f_equal String.length) in H. simpl in H.
    rewrite length_append in H. lia.
  - exfalso. apply (f_equal String.length) in H. simpl in H.
    rewrite length_append in H. lia.
  - injection H as -> H. f_equal. apply IH; exact H.
Qed.

Lemma underscoreStart_nondigit (s : string) :
  underscoreStart s = true -> nondigitStart s = true.
Proof.
  destruct s as [|c s]; simpl; [reflexivity|].
  intros H. apply Ascii.eqb_eq in H. subst c. reflexivity.
Qed.

(** A run of digits ends where the first non-digit stands. *)
Lemma digits_delimited :
  forall (d1 d2 X Y : string),
    allDigits d1 = true -> allDigits d2 = true ->
    nondigitStart X = true -> nondigitStart Y = true ->
    d1 ++ X = d2 ++ Y -> d1 = d2 /\ X = Y.
Proof.
  induction d1 as [|c d1 IH]; intros [|c' d2] X Y H1 H2 HX HY H; simpl in *.
  - auto.
  - subst X. simpl in HX. apply andb_true_iff in H2 as [H2 _].
    rewrite H2 in HX. discriminate.
  - subst Y. simpl in HY. apply andb_true_iff in H1 as [H1 _].
    rewrite H1 in HY. discriminate.
  - injection H as -> H.
    apply andb_true_iff in H1 as [_ H1]. apply andb_true_iff in H2 as [_ H2].
    destruct (IH d2 X Y H1 H2 HX HY H) as [-> ->]. auto.
Qed.

Lemma string_of_uint_digits (d : Decimal.uint) :
  allDigits (NilEmpty.string_of_uint d) = true.
Proof. induction d; simpl; auto. Qed.

Lemma string_of_uint_nonempty (d : Decimal.uint) :
  d <> Decimal.Nil -> NilEmpty.string_of_uint d <> "".
Proof. destruct d; simpl; congruence. Qed.

(** The decimal text of a number: a non-empty run of digits, after a minus
    sign for a negative number. *)
Lemma showZ_form (z : Z) :
  exists d : string,
    allDigits d = true /\ d <> "" /\
    (showZ z = d \/ showZ z = String "-" d).
Proof.
  unfold showZ. destruct z as [|p|p]; simpl.
  - exists "0". repeat split; [discriminate | left; reflexivity].
  - exists (NilEmpty.string_of_uint (Pos.to_uint p)).
    pose proof (DecimalPos.Unsigned.to_uint_nonnil p) as Hn.
    split; [apply string_of_uint_digits|].
    split; [apply string_of_uint_nonempty; exact Hn|].
    left. unfold NilZero.string_of_uint. destruct (Pos.to_uint p); congruence.
  - exists (NilEmpty.string_of_uint (Pos.to_uint p)).
    pose proof (DecimalPos.Unsigned.to_uint_nonnil p) as Hn.
    split; [apply string_of_uint_digits|].
    split; [apply string_of_uint_nonempty; exact Hn|].
    right. unfold NilZero.string_of_uint. destruct (Pos.to_uint p); congruence.
Qed.

Lemma showZ_inj (a b : Z) : showZ a = showZ b -> a = b.
Proof.
  unfold showZ. intros H. apply DecimalZ.to_int_inj.
  assert (P : forall z, NilZero.int_of_string
                          (NilZero.string_of_int (Z.to_int z)) =
                        Some (Z.to_int z)).
  { intros z. apply NilZero.isi; destruct z as [|p|p]; simpl; try discriminate;
      intros [= Hp]; exact (DecimalPos.Unsigned.to_uint_nonnil p Hp). }
  pose proof (P a) as Pa. rewrite H, P in Pa. congruence.
Qed.

(** The text of a number opens with a digit or a minus sign. *)
Lemma showZ_head (z : Z) :
  exists (c : ascii) (r : string),
    showZ z = String c r /\ (isDigit c = true \/ c = "-"%char).
Proof.
  destruct (showZ_form z) as (d & Hd & Hne & [H | H]).
  - destruct d as [|c d]; [congruence|]. exists c, d. split; [exact H|].
    left. simpl in Hd. apply andb_true_iff in Hd. tauto.
  - exists "-"%char, d. auto.
Qed.

(** A number is read back from the front of a text once it is followed by
    the end of the text or by something that is not a digit. *)
Lemma number_delimited (a b : Z) (X Y : string) :
  nondigitStart X = true -> nondigitStart Y = true ->
  showZ a ++ X = showZ b ++ Y -> a = b /\ X = Y.
Proof.
  intros HX HY H.
  destruct (showZ_form a) as (da & Da & Na & Fa).
  destruct (showZ_form b) as (db & Db & Nb & Fb).
  assert (G : showZ a = showZ b /\ X = Y).
  { destruct Fa as [Fa | Fa], Fb as [Fb | Fb]; rewrite Fa, Fb in *.
    - destruct (digits_delimited da db X Y Da Db HX HY H) as [-> ->]. auto.
    - exfalso. destruct da as [|c da]; [congruence|].
      simpl in H. injection H as -> _. simpl in Da. discriminate.
    - exfalso. destruct db as [|c db]; [congruence|].
      simpl in H. injection H as <- _. simpl in Db. discriminate.
    - simpl in H. injection H as H.
      destruct (digits_delimited da db X Y Da Db HX HY H) as [-> ->]. auto. }
  destruct G as [G ->]. split; [apply showZ_inj; exact G | reflexivity].
Qed.

Lemma showArray_cons (a : Z) (l : list Z) :
  showArray (a :: l) =
  showZ a ++ match l with [] => "" | _ :: _ => "," ++ showArray l end.
Proof.
  unfold showArray, join. destruct l; simpl; [now rewrite append_nil_r | reflexivity].
Qed.

(** An array of numbers is read back from the front of a text once it is
    followed by the end of the text or by the key separator. *)
Lemma showArray_delimited :
  forall (l1 l2 : list Z) (R1 R2 : string),
    underscoreStart R1 = true -> underscoreStart R2 = true ->
    showArray l1 ++ R1 = showArray l2 ++ R2 -> l1 = l2 /\ R1 = R2.
Proof.
  induction l1 as [|a l1 IH]; intros [|b l2] R1 R2 H1 H2 H.
  - simpl in H. auto.
  - exfalso. rewrite showArray_cons in H.
    destruct (showZ_head b) as (c & r & Hb & Hc). rewrite Hb in H.
    change (showArray [] ++ R1) with R1 in H. subst R1. simpl in H1.
    apply Ascii.eqb_eq in H1. subst c. destruct Hc; discriminate.
  - exfalso. rewrite showArray_cons in H.
    destruct (showZ_head a) as (c & r & Ha & Hc). rewrite Ha in H.
    change (showArray [] ++ R2) with R2 in H. subst R2. simpl in H2.
    apply Ascii.eqb_eq in H2. subst c. destruct Hc; discriminate.
  - rewrite !showArray_cons, !append_assoc in H.
    apply number_delimited in H.
    + destruct H as [-> H].
      destruct l1 as [|a1 l1], l2 as [|b1 l2]; simpl in H.
      * subst; auto.
      * exfalso. subst R1. simpl in H1. discriminate.
      * exfalso. subst R2. simpl in H2. discriminate.
      * injection H as H. destruct (IH (b1 :: l2) R1 R2 H1 H2 H) as [E ->].
        rewrite E. auto.
    + destruct l1; [apply underscoreStart_nondigit; exact H1 | reflexivity].
    + destruct l2; [apply underscoreStart_nondigit; exact H2 | reflexivity].
Qed.

Lemma showArray_pair (r c : Z) : showArray [r; c] = showZ r ++ "," ++ showZ c.
Proof. reflexivity. Qed.

(** The element of one array is read back from the front of a text. *)
Lemma keyElement_delimited (d1 d2 : list Z * (Z * Z)) (R1 R2 : string) :
  underscoreStart R1 = true -> underscoreStart R2 = true ->
  keyElement d1 ++ R1 = keyElement d2 ++ R2 -> d1 = d2 /\ R1 = R2.
Proof.
  destruct d1 as [s1 [r1 c1]], d2 as [s2 [r2 c2]]. intros H1 H2 H.
  unfold keyElement, pairToArray in H. cbn [fst snd] in H.
  rewrite !showArray_pair, !append_assoc in H.
  apply showArray_delimited in H; [|reflexivity|reflexivity].
  destruct H as [-> H]. cbn [append] in H. injection H as H.
  apply number_delimited in H; [|reflexivity|reflexivity].
  destruct H as [-> H]. injection H as H.
  apply number_delimited in H;
    [|apply underscoreStart_nondigit; assumption
     |apply underscoreStart_nondigit; assumption].
  destruct H as [-> ->]. auto.
Qed.

Lemma trailing_app (sep : string) (l1 l2 : list string) :
  trailing sep (l1 ++ l2) = trailing sep l1 ++ trailing sep l2.
Proof.
  induction l1 as [|x l1 IH]; simpl; [reflexivity|].
  rewrite IH, !append_assoc. reflexivity.
Qed.

Lemma join_cons (sep x : string) (l : list string) :
  join sep (x :: l) = x ++ trailing sep l.
Proof.
  unfold join. revert x; induction l as [|y l IH]; intros x; simpl.
  - now rewrite append_nil_r.
  - simpl in IH. rewrite IH. reflexivity.
Qed.

Lemma underscoreStart_trailing (l : list string) :
  underscoreStart (trailing "_" l) = true.
Proof. destruct l; reflexivity. Qed.

(** The elements of the arrays are read back from their part of the key. *)
Lemma trailing_keyElements_inj :
  forall l1 l2 : list (list Z * (Z * Z)),
    trailing "_" (map keyElement l1) = trailing "_" (map keyElement l2) ->
    l1 = l2.
Proof.
  induction l1 as [|d1 l1 IH]; intros [|d2 l2] H; simpl in H;
    try discriminate H; [reflexivity|].
  injection H as H.
  apply keyElement_delimited in H; try apply underscoreStart_trailing.
  destruct H as [-> H]. f_equal. apply IH; exact H.
Qed.

(** The key, written as its parts. *)
Lemma makeShaderKey_parts (program : GPGPUProgram) (inputs : list NDArray)
    (output : NDArray) :
  makeShaderKey program inputs output =
  (constructor_name program ++ "_" ++ showBool (broadcasting program)) ++
  trailing "_" (map keyElement (map shapeData (inputs ++ [output]))) ++
  trailing "_" (map toString (params program)).
Proof.
  unfold makeShaderKey. cbn [app]. rewrite join_cons.
  cbn [trailing]. rewrite trailing_app, !append_assoc.
  rewrite map_map. reflexivity.
Qed.

End KeyFacts.

(** C3.  [makeShaderKey] is a function of the operation identity, the
    broadcasting flag, the stringified parameters and the (logical shape,
    texture shape) of every input and of the output, and of nothing else:
    calls that agree on these return the same key.  It tells shapes apart:
    for the same identity, flag and parameters, calls whose lists of shapes
    are not the same -- in particular when one dimension of one logical or
    texture shape has another value -- return different keys. *)
Theorem makeShaderKey_pure_and_shape_sensitive :
  forall (p1 p2 : GPGPUProgram) (inputs1 inputs2 : list NDArray)
         (output1 output2 : NDArray),
    (keyData p1 inputs1 output1 = keyData p2 inputs2 output2 ->
     makeShaderKey p1 inputs1 output1 = makeShaderKey p2 inputs2 output2) /\
    (constructor_name p1 = constructor_name p2 ->
     broadcasting p1 = broadcasting p2 ->
     map toString (params p1) = map toString (params p2) ->
     map shapeData (inputs1 ++ [output1]) <> map shapeData (inputs2 ++ [output2]) ->
     makeShaderKey p1 inputs1 output1 <> makeShaderKey p2 inputs2 output2).
Proof.
  intros p1 p2 inputs1 inputs2 output1 output2. split.
  - unfold keyData. intros [= Hn Hb Hp Hs].
    rewrite !makeShaderKey_parts, Hn, Hb, Hp, Hs. reflexivity.
  - intros Hn Hb Hp Hs Hkey. apply Hs.
    rewrite !makeShaderKey_parts, Hn, Hb, Hp in Hkey.
    apply append_inv_head in Hkey.
    apply append_inv_tail in Hkey.
    apply trailing_keyElements_inj; exact Hkey.
Qed.

Lemma makeShaderKey_pure_and_shape_sensitive_witness :
  makeShaderKey sampleProgram [arrayA; arrayB] arrayOut =
    makeShaderKey
      (mkGPGPUProgram "AddProgram" ["x"; "y"] [] [p_string "3"; p_string "1,2"]
         "setOutput(getX() - getY());" (Some true))
      [mkNDArray [2; 2]%Z (2, 2)%Z 20; arrayB] arrayOut /\
  makeShaderKey sampleProgram [arrayA; arrayB] arrayOut <>
    makeShaderKey sampleProgram [mkNDArray [2; 3]%Z (2, 2)%Z 10; arrayB] arrayOut.
Proof.
  split.
  - exact (proj1 (makeShaderKey_pure_and_shape_sensitive sampleProgram
                    (mkGPGPUProgram "AddProgram" ["x"; "y"] []
                       [p_string "3"; p_string "1,2"]
                       "setOutput(getX() - getY());" (Some true))
                    [arrayA; arrayB] [mkNDArray [2; 2]%Z (2, 2)%Z 20; arrayB]
                    arrayOut arrayOut) eq_refl).
  - refine (proj2 (makeShaderKey_pure_and_shape_sensitive sampleProgram
                     sampleProgram [arrayA; arrayB]
                     [mkNDArray [2; 3]%Z (2, 2)%Z 10; arrayB] arrayOut arrayOut)
                  eq_refl eq_refl eq_refl _).
    simpl. intros H. discriminate H.
Defined.

(* ================================================================== *)
(** ** Further properties of [GPGPUContext] *)

(** Case analysis on everything a method body branches on. *)
Ltac split_branches H :=
  repeat match type of H with
         | context [if ?b then _ else _] => destruct b eqn:?
         | context [match ?x with Some _ => _ | None => _ end] => destruct x eqn:?
         | context [let (_, _) := ?x in _] => destruct x eqn:?
         end.

(** X1.  The only errors the class raises by itself are its three guards,
    and a guard fires before anything is done: whenever a public method
    throws, the world is exactly the one it was called in, and the error is
    the disposed-context error, the no-program error or the not-implemented
    error of [setOutputPackedMatrixWriteRegion]. *)
Theorem method_failure_is_a_guard :
  forall (getPackedMatrixTextureShapeWidthHeight : Z -> Z -> Z * Z)
         (m : Method) (w w' : World) (e : Exn),
    invoke getPackedMatrixTextureShapeWidthHeight m w = (Throw e, w') ->
    w' = w /\
    (e = Error disposedMessage \/ e = Error noProgramMessage \/
     e = Error notImplementedMessage).
Proof.
  intros f m w w' e H. open_world w.
  destruct m; revert H; step;
    try match goal with |- context [f ?r ?c] => destruct (f r c) end;
    step; unfold option_nat_eqb; intros H;
    split_branches H; inversion H; subst; auto.
Qed.

Lemma method_failure_is_a_guard_witness :
  readyWorld = readyWorld /\
  (Error noProgramMessage = Error disposedMessage \/
   Error noProgramMessage = Error noProgramMessage \/
   Error noProgramMessage = Error notImplementedMessage).
Proof.
  exact (method_failure_is_a_guard (fun rows columns => (columns, rows))
           (m_getUniformLocation "A") readyWorld readyWorld
           (Error noProgramMessage) eq_refl).
Defined.

(** X2.  Who writes what.  No public method ever reassigns the vertex
    buffer, the index buffer or the framebuffer of a context; only [dispose]
    changes the disposed flag, only [enableAutomaticDebugValidation] the debug
    flag, only [setProgram] and [deleteProgram] the bound-program slot, and
    only [setOutputMatrixTexture], [setOutputPackedMatrixTexture] and
    [deleteMatrixTexture] the bound-output slot. *)
Theorem methods_write_only_their_slots :
  forall (getPackedMatrixTextureShapeWidthHeight : Z -> Z -> Z * Z)
         (m : Method) (w : World),
    let c := gpgpu w in
    let c' := gpgpu (snd (invoke getPackedMatrixTextureShapeWidthHeight m w)) in
    vertexBuffer c' = vertexBuffer c /\
    indexBuffer c' = indexBuffer c /\
    framebuffer c' = framebuffer c /\
    (m <> m_dispose -> disposed c' = disposed c) /\
    ((forall enabled, m <> m_enableAutomaticDebugValidation enabled) ->
     autoDebugValidate c' = autoDebugValidate c) /\
    (assignsProgram m = false ->
     gpgpu_context.program c' = gpgpu_context.program c) /\
    (assignsOutputTexture m = false -> outputTexture c' = outputTexture c).
Proof.
  intros f m w c c'. subst c c'. open_world w.
  destruct m; step;
    try match goal with |- context [f ?r ?c] => destruct (f r c) end;
    step; unfold option_nat_eqb;
    repeat match goal with
           | |- context [if ?b then _ else _] => destruct b
           | |- context [match ?x with Some _ => _ | None => _ end] => destruct x
           end;
    simpl; repeat split; intros; try reflexivity; try discriminate;
    try congruence.
  exfalso. eapply H. reflexivity.
Qed.

Lemma methods_write_only_their_slots_witness :
  disposed (gpgpu (snd (invoke (fun rows columns => (columns, rows))
                          (m_setProgram (Some 6)) readyWorld))) = false /\
  outputTexture (gpgpu (snd (invoke (fun rows columns => (columns, rows))
                               (m_setProgram (Some 6)) boundWorld))) = Some 12.
Proof.
  split.
  - refine (proj1 (proj2 (proj2 (proj2
      (methods_write_only_their_slots (fun rows columns => (columns, rows))
         (m_setProgram (Some 6)) readyWorld)))) _).
    discriminate.
  - exact (proj2 (proj2 (proj2 (proj2 (proj2 (proj2
      (methods_write_only_their_slots (fun rows columns => (columns, rows))
         (m_setProgram (Some 6)) boundWorld)))))) eq_refl).
Defined.

(** X3.  With automatic debug validation off, no public method other than
    [debugValidate] itself issues a program or framebuffer validation: the
    calls a method adds to the history contain no [validateProgram] and no
    [validateFramebuffer]. *)
Theorem no_validation_unless_debugging :
  forall (getPackedMatrixTextureShapeWidthHeight : Z -> Z -> Z * Z)
         (m : Method) (w : World),
    autoDebugValidate (gpgpu w) = false ->
    m <> m_debugValidate ->
    exists issued : list Call,
      trace (snd (invoke getPackedMatrixTextureShapeWidthHeight m w)) =
        trace w ++ issued /\
      existsb isValidation issued = false.
Proof.
  intros f m w Hoff Hm. open_world w.
  destruct m; try congruence; step;
    try match goal with |- context [f ?r ?c] => destruct (f r c) end;
    step; unfold option_nat_eqb;
    repeat match goal with
           | |- context [if ?b then _ else _] => destruct b
           | |- context [match ?x with Some _ => _ | None => _ end] => destruct x
           end;
    simpl; rewrite <- ?app_assoc;
    first [ exists []; split; [symmetry; apply app_nil_r | reflexivity]
          | eexists; split; [reflexivity | reflexivity] ].
Qed.

Lemma no_validation_unless_debugging_witness :
  exists issued : list Call,
    trace (snd (invoke (fun rows columns => (columns, rows))
                  (m_setOutputMatrixTexture 12 2 3) readyWorld)) =
      trace readyWorld ++ issued /\
    existsb isValidation issued = false.
Proof.
  refine (no_validation_unless_debugging (fun rows columns => (columns, rows))
            (m_setOutputMatrixTexture 12 2 3) readyWorld eq_refl _).
  discriminate.
Defined.

(** X4.  Deleting something that is not bound leaves the bindings alone.  On
    a live context, [deleteProgram] of a program other than the active one
    only deletes that program, and [deleteMatrixTexture] of a texture other
    than the bound output only deletes that texture: the slots keep their
    values and the framebuffer is not touched.  [deleteProgram(null)] does
    nothing at all. *)
Theorem delete_of_unbound_keeps_slots :
  forall (w : World),
    disposed (gpgpu w) = false ->
    let c := gpgpu w in
    (forall p : WebGLProgram,
        gpgpu_context.program c <> Some p ->
        deleteProgram (Some p) w = (Normal tt, after w c [gl_deleteProgram p])) /\
    (forall t : WebGLTexture,
        outputTexture c <> Some t ->
        deleteMatrixTexture t w = (Normal tt, after w c [gl_deleteTexture t])) /\
    deleteProgram None w = (Normal tt, w).
Proof.
  intros w Hlive c. subst c. open_world w. repeat split.
  - intros p Hp. step. unfold option_nat_eqb.
    destruct program0 as [q|]; [|reflexivity].
    destruct (Nat.eqb_spec p q); [congruence | reflexivity].
  - intros t Ht. step. unfold option_nat_eqb.
    destruct outputTexture0 as [o|]; [|reflexivity].
    destruct (Nat.eqb_spec o t); [congruence | reflexivity].
  - step. destruct program0; reflexivity.
Qed.

Lemma delete_of_unbound_keeps_slots_witness :
  deleteProgram (Some 9) boundWorld =
    (Normal tt, after boundWorld (gpgpu boundWorld) [gl_deleteProgram 9]) /\
  deleteMatrixTexture 10 boundWorld =
    (Normal tt, after boundWorld (gpgpu boundWorld) [gl_deleteTexture 10]).
Proof.
  split.
  - refine (proj1 (delete_of_unbound_keeps_slots boundWorld eq_refl) 9 _).
    discriminate.
  - refine (proj1 (proj2 (delete_of_unbound_keeps_slots boundWorld eq_refl)) 10 _).
    discriminate.
Defined.

(** X5.  [setOutputMatrixWriteRegion(startRow, numRows, startColumn,
    numColumns)] on a live context moves only the scissor rectangle, to
    x = startColumn, y = startRow, width = numColumns, height = numRows; the
    viewport, the framebuffer attachment and the context object stay as they
    were. *)
Theorem setOutputMatrixWriteRegion_moves_only_the_scissor :
  forall (w : World) (startRow numRows startColumn numColumns : Z),
    disposed (gpgpu w) = false ->
    let w' := snd (setOutputMatrixWriteRegion startRow numRows startColumn
                     numColumns w) in
    setOutputMatrixWriteRegion startRow numRows startColumn numColumns w =
      (Normal tt,
       after w (gpgpu w) [gl_scissor startColumn startRow numColumns numRows]) /\
    lastScissor (trace w') None =
      Some (startColumn, startRow, numColumns, numRows) /\
    lastViewport (trace w') None = lastViewport (trace w) None /\
    attachedTexture (framebuffer (gpgpu w)) (trace w') =
      attachedTexture (framebuffer (gpgpu w)) (trace w).
Proof.
  intros w startRow numRows startColumn numColumns Hlive w'.
  assert (E : setOutputMatrixWriteRegion startRow numRows startColumn
                numColumns w =
              (Normal tt,
               after w (gpgpu w)
                 [gl_scissor startColumn startRow numColumns numRows])).
  { open_world w. reflexivity. }
  subst w'. rewrite E. split; [reflexivity|].
  unfold attachedTexture, after; simpl.
  rewrite lastScissor_app, lastViewport_app, colorAttachment_app.
  repeat split.
Qed.

Lemma setOutputMatrixWriteRegion_moves_only_the_scissor_witness :
  setOutputMatrixWriteRegion 1 2 3 4 boundWorld =
    (Normal tt, after boundWorld (gpgpu boundWorld) [gl_scissor 3 1 4 2]).
Proof.
  exact (proj1 (setOutputMatrixWriteRegion_moves_only_the_scissor boundWorld
                  1 2 3 4 eq_refl)).
Defined.

Section TearDownFacts.

Lemma deleteProgram_active (w : World) (p : WebGLProgram) :
  disposed (gpgpu w) = false ->
  gpgpu_context.program (gpgpu w) = Some p ->
  deleteProgram (Some p) w =
    (Normal tt, after w (set_program None (gpgpu w)) [gl_deleteProgram p]).
Proof.
  intros Hlive Hp. open_world w. step.
  unfold option_nat_eqb. rewrite Nat.eqb_refl. reflexivity.
Qed.

Lemma deleteMatrixTexture_bound (w : World) (t : WebGLTexture) :
  disposed (gpgpu w) = false ->
  outputTexture (gpgpu w) = Some t ->
  deleteMatrixTexture t w =
    (Normal tt,
     after w (set_outputTexture None (gpgpu w))
       [unbindColorTextureFromFramebuffer (framebuffer (gpgpu w));
        gl_deleteTexture t]).
Proof.
  intros Hlive Ht. open_world w. step.
  unfold option_nat_eqb. rewrite Nat.eqb_refl.
  simpl. rewrite <- app_assoc. reflexivity.
Qed.

Lemma dispose_live (w : World) :
  disposed (gpgpu w) = false ->
  dispose w =
    (Normal tt,
     after w (set_disposed true (gpgpu w))
       (leakCalls (gpgpu w) ++ releaseCalls (gpgpu w))).
Proof.
  intros Hlive. open_world w. unfold leakCalls, releaseCalls. step.
  destruct program0, outputTexture0; simpl; rewrite <- ?app_assoc; reflexivity.
Qed.

End TearDownFacts.

(** X6.  Binding an output texture and a program, then deleting both and
    disposing, never throws on a live context and emits no leak diagnostic,
    whatever was bound before: the two deletes clear the slots the two binds
    filled, and a resource bound earlier is simply forgotten by the rebind. *)
Theorem bind_delete_dispose_is_silent :
  forall (w : World) (texture : WebGLTexture) (rows columns : Z)
         (p : WebGLProgram),
    disposed (gpgpu w) = false ->
    exists issued : list Call,
      bindThenTearDown texture rows columns p w =
        (Normal tt,
         after w
           (set_disposed true
              (set_program None (set_outputTexture None (gpgpu w))))
           issued) /\
      warnings issued = [].
Proof.
  intros w texture rows columns p Hlive.
  pose proof (setOutputMatrixTextureDriver_live w texture columns rows Hlive)
    as H1.
  match type of H1 with _ = (_, ?w1) =>
    pose proof (setProgram_live w1 p Hlive) as H2 end.
  match type of H2 with _ = (_, ?w2) =>
    pose proof (deleteProgram_active w2 p Hlive eq_refl) as H3 end.
  match type of H3 with _ = (_, ?w3) =>
    pose proof (deleteMatrixTexture_bound w3 texture Hlive eq_refl) as H4 end.
  match type of H4 with _ = (_, ?w4) =>
    pose proof (dispose_live w4 Hlive) as H5 end.
  unfold bindThenTearDown, setOutputMatrixTexture.
  rewrite (bind_normal _ _ _ _ _ H1), (bind_normal _ _ _ _ _ H2).
  rewrite (bind_normal _ _ _ _ _ H3), (bind_normal _ _ _ _ _ H4).
  rewrite H5, !after_after.
  destruct w as [c tr fr rp]; destruct c as [vb ib fb out prog d adv].
  simpl in Hlive; subst d.
  destruct adv, prog, out; (eexists; split; [reflexivity | reflexivity]).
Qed.

Lemma bind_delete_dispose_is_silent_witness :
  exists issued : list Call,
    bindThenTearDown 20 2 2 7 boundWorld =
      (Normal tt,
       after boundWorld
         (set_disposed true
            (set_program None (set_outputTexture None (gpgpu boundWorld))))
         issued) /\
    warnings issued = [].
Proof.
  exact (bind_delete_dispose_is_silent boundWorld 20 2 2 7 eq_refl).
Defined.

(* ================================================================== *)
(** ** Further properties of [gpgpu_math.ts] *)

Section RunFacts.

Lemma validateBinaryAndProgram_arity shapeInfos inputs :
  length inputs <> length shapeInfos ->
  validateBinaryAndProgram shapeInfos inputs =
    Throw (Error (arityMessage (length shapeInfos) (length inputs))).
Proof.
  intros H. unfold validateBinaryAndProgram.
  destruct (Nat.eqb_spec (length shapeInfos) (length inputs));
    [congruence | reflexivity].
Qed.

(** Once both validations pass on a live context, [runProgram] is the hook
    followed by [executeProgram], run on the world with everything bound. *)
Lemma runProgram_prepared (binary : GPGPUBinary) (inputs : list NDArray)
    (output : NDArray) (customSetup : option (M unit)) (w : World) :
  Forall2 matches (inShapeInfos binary) inputs ->
  matches (outShapeInfo binary) output ->
  disposed (gpgpu w) = false ->
  runProgram binary inputs output customSetup w =
  (match customSetup with Some setup => setup | None => ret tt end ;;
   executeProgram)
    (after w
       (set_program (Some (webGLProgram binary))
          (set_outputTexture (Some (getTexture output)) (gpgpu w)))
       (outputBindingCalls (gpgpu w) (getTexture output)
          (snd (getTextureShapeRC output)) (fst (getTextureShapeRC output)) ++
        programBindingCalls (gpgpu w) (webGLProgram binary) ++
        inputBindingCalls 0 (Some (webGLProgram binary))
          (variableNames (program binary)) inputs)).
Proof.
  intros Hins Hout Hlive.
  assert (H1 : lift (validateBinaryAndProgram (inShapeInfos binary) inputs) w =
               (Normal tt, w)).
  { unfold lift. rewrite (validateBinaryAndProgram_matches _ _ Hins).
    reflexivity. }
  assert (H2 : lift (validateBinaryAndProgram [outShapeInfo binary] [output]) w =
               (Normal tt, w)).
  { unfold lift.
    rewrite (validateBinaryAndProgram_matches [outShapeInfo binary] [output])
      by (constructor; [exact Hout | constructor]).
    reflexivity. }
  pose proof (setOutputMatrixTextureDriver_live w (getTexture output)
                (snd (getTextureShapeRC output))
                (fst (getTextureShapeRC output)) Hlive) as H3.
  match type of H3 with _ = (_, ?w1) =>
    pose proof (setProgram_live w1 (webGLProgram binary) Hlive) as H4
  end.
  match type of H4 with _ = (_, ?w2) =>
    pose proof (bind_inputs_live (variableNames (program binary))
                  (webGLProgram binary) inputs 0 w2 Hlive eq_refl) as H5
  end.
  unfold runProgram.
  rewrite (bind_normal _ _ _ _ _ H1), (bind_normal _ _ _ _ _ H2).
  unfold setOutputMatrixTexture.
  rewrite (bind_normal _ _ _ _ _ H3), (bind_normal _ _ _ _ _ H4).
  rewrite (bind_normal _ _ _ _ _ H5).
  rewrite !after_after. reflexivity.
Qed.

Lemma matches_shapeInfoOf (x y : NDArray) :
  sameShapes x y -> matches (shapeInfoOf x) y.
Proof.
  unfold sameShapes, shapeData, matches, shapeInfoOf; simpl.
  intros [= H1 H2]. auto.
Qed.

Lemma Forall2_matches_shapeInfoOf (xs ys : list NDArray) :
  Forall2 sameShapes xs ys -> Forall2 matches (map shapeInfoOf xs) ys.
Proof.
  induction 1 as [|x y xs ys H _ IH]; simpl; constructor;
    [apply matches_shapeInfoOf; exact H | exact IH].
Qed.

Lemma validateBinaryAndProgram_accepts_matches shapeInfos inputs :
  validateBinaryAndProgram shapeInfos inputs = Normal tt ->
  Forall2 matches shapeInfos inputs.
Proof.
  intros H.
  destruct (Nat.eq_dec (length inputs) (length shapeInfos)) as [Hlen | Hlen].
  - rewrite validateBinaryAndProgram_same_arity in H by exact Hlen.
    destruct (validatePairs_cases shapeInfos inputs Hlen)
      as [[_ Hall] | (s & x & e & _ & _ & Ht)]; [exact Hall | congruence].
  - rewrite validateBinaryAndProgram_arity in H by exact Hlen. discriminate.
Qed.

End RunFacts.

(** X7.  [validateBinaryAndProgram] returns normally exactly when the two
    lists have the same length and, index by index, the captured logical
    shape and texture shape are those of the array. *)
Theorem validateBinaryAndProgram_accepts_iff_matches :
  forall (shapeInfos : list ShapeInfo) (inputs : list NDArray),
    validateBinaryAndProgram shapeInfos inputs = Normal tt <->
    Forall2 matches shapeInfos inputs.
Proof.
  intros shapeInfos inputs. split.
  - apply validateBinaryAndProgram_accepts_matches.
  - apply validateBinaryAndProgram_matches.
Qed.

(** X8.  The arity guard keeps the loop inside both arrays: whatever the two
    lists are, [validateBinaryAndProgram] never ends in the [TypeError] of
    reading [inputs[i]] past the end; what it throws is one of its own three
    [Error]s. *)
Theorem validateBinaryAndProgram_throws_only_its_errors :
  forall (shapeInfos : list ShapeInfo) (inputs : list NDArray) (e : Exn),
    validateBinaryAndProgram shapeInfos inputs = Throw e ->
    e = Error (arityMessage (length shapeInfos) (length inputs)) \/
    exists (s : ShapeInfo) (x : NDArray),
      In (s, x) (combine shapeInfos inputs) /\ namesShapesOf s x e.
Proof.
  intros shapeInfos inputs e H.
  destruct (Nat.eq_dec (length inputs) (length shapeInfos)) as [Hlen | Hlen].
  - right. rewrite validateBinaryAndProgram_same_arity in H by exact Hlen.
    destruct (validatePairs_cases shapeInfos inputs Hlen)
      as [[Hok _] | (s & x & e' & Hin & Hn & Ht)]; [congruence|].
    exists s, x. split; [exact Hin|]. congruence.
  - left. rewrite validateBinaryAndProgram_arity in H by exact Hlen. congruence.
Qed.

Lemma validateBinaryAndProgram_throws_only_its_errors_witness :
  Error (arityMessage 2 1) = Error (arityMessage 2 1) \/
  exists (s : ShapeInfo) (x : NDArray),
    In (s, x) (combine (inShapeInfos sampleBinary) [arrayV]) /\
    namesShapesOf s x (Error (arityMessage 2 1)).
Proof.
  exact (validateBinaryAndProgram_throws_only_its_errors
           (inShapeInfos sampleBinary) [arrayV] (Error (arityMessage 2 1))
           eq_refl).
Defined.

(** X9.  The error reported is that of the first pair that differs, and for
    that pair the logical shape is looked at before the texture shape: when
    all pairs before index k match and both lists have the same length, a
    logical-shape difference at k gives the logical-shape error of that pair,
    and a texture-shape difference alone gives its texture-shape error,
    whatever the pairs after k are. *)
Theorem validateBinaryAndProgram_reports_first_difference :
  forall (before after_ : list ShapeInfo) (s : ShapeInfo)
         (inputsBefore inputsAfter : list NDArray) (x : NDArray),
    Forall2 matches before inputsBefore ->
    length inputsAfter = length after_ ->
    (logicalShape s <> shape x ->
     validateBinaryAndProgram (before ++ s :: after_)
       (inputsBefore ++ x :: inputsAfter) =
     Throw (Error (shapeMessage (logicalShape s) (shape x)))) /\
    (logicalShape s = shape x -> texShape s <> getTextureShapeRC x ->
     validateBinaryAndProgram (before ++ s :: after_)
       (inputsBefore ++ x :: inputsAfter) =
     Throw (Error (texShapeMessage (texShape s) (getTextureShapeRC x)))).
Proof.
  intros before after_ s inputsBefore inputsAfter x Hbefore Hlen.
  assert (Hl : length (inputsBefore ++ x :: inputsAfter) =
               length (before ++ s :: after_)).
  { rewrite !length_app. simpl. rewrite (Forall2_length Hbefore). lia. }
  rewrite validateBinaryAndProgram_same_arity by exact Hl.
  assert (Hstep : validatePairs (before ++ s :: after_)
                    (inputsBefore ++ x :: inputsAfter) =
                  validatePairs (s :: after_) (x :: inputsAfter)).
  { clear Hl. induction Hbefore as [|s0 x0 ss xs [H1 H2] _ IH]; [reflexivity|].
    cbn [app validatePairs]. rewrite H1, H2.
    rewrite (proj2 (arraysEqual_eq (shape x0) (shape x0)) eq_refl).
    rewrite (proj2 (arraysEqual_eq (pairToArray (getTextureShapeRC x0))
                      (pairToArray (getTextureShapeRC x0))) eq_refl).
    exact IH. }
  rewrite Hstep. cbn [validatePairs]. split.
  - intros Hd. apply arraysEqual_neq in Hd. rewrite Hd. reflexivity.
  - intros He Hd. rewrite (proj2 (arraysEqual_eq _ _) He). cbn [negb].
    assert (Hp : pairToArray (texShape s) <> pairToArray (getTextureShapeRC x)).
    { intros Hp. apply Hd, pairToArray_inj, Hp. }
    apply arraysEqual_neq in Hp. rewrite Hp. reflexivity.
Qed.

Lemma validateBinaryAndProgram_reports_first_difference_witness :
  validateBinaryAndProgram
    ([shapeInfoOf arrayA] ++ shapeInfoOf arrayB :: [shapeInfoOf arrayOut])
    ([arrayA] ++ arrayV :: [arrayV]) =
  Throw (Error (shapeMessage [] [3]%Z)).
Proof.
  refine (proj1 (validateBinaryAndProgram_reports_first_difference
                   [shapeInfoOf arrayA] [shapeInfoOf arrayOut]
                   (shapeInfoOf arrayB) [arrayA] [arrayV] arrayV _ eq_refl) _).
  - repeat constructor.
  - discriminate.
Defined.

Section CompileRunFacts.

Variable makeShader :
  list InputInfo -> ShapeInfo -> string -> bool -> Completion string.

Lemma compileProgram_live (program : GPGPUProgram) (inputs : list NDArray)
    (output : NDArray) (w : World) (source : string) :
  makeShader (inputInfosOf program inputs) (shapeInfoOf output)
    (userCode program) (broadcasting program) = Normal source ->
  disposed (gpgpu w) = false ->
  compileProgram makeShader program inputs output w =
    (Normal (mkGPGPUBinary (S (S (fresh w))) program source
               (map shapeInfoOf inputs) (shapeInfoOf output)),
     mkWorld (gpgpu w)
       (trace w ++ createProgramCalls (gpgpu w) (fresh w) source)
       (S (S (S (fresh w)))) (readPixels w)).
Proof.
  intros Hs Hlive. unfold compileProgram.
  unfold bind at 1. unfold lift.
  change (makeShader _ _ _ _)
    with (makeShader (inputInfosOf program inputs) (shapeInfoOf output)
            (userCode program) (broadcasting program)).
  rewrite Hs. unfold bind. rewrite createProgram_live by exact Hlive.
  unfold ret. rewrite inShapeInfos_of_inputs. reflexivity.
Qed.

(** X10.  A binary runs on what it was compiled for, and on anything of the
    same shapes.  When the shader compiler returns a source on a live
    context, the binary [compileProgram] returns passes the validation of
    [runProgram] for every input list and output whose logical and texture
    shapes are those of the arrays compiled for (the same arrays included):
    the run, without a hook, returns normally, leaves the new program active
    and the output's texture bound, and ends with the draw call. *)
Theorem compiled_binary_runs_on_same_shapes :
  forall (program : GPGPUProgram) (inputs inputs' : list NDArray)
         (output output' : NDArray) (w : World) (source : string),
    makeShader (inputInfosOf program inputs) (shapeInfoOf output)
      (userCode program) (broadcasting program) = Normal source ->
    disposed (gpgpu w) = false ->
    Forall2 sameShapes inputs inputs' ->
    sameShapes output output' ->
    exists (binary : GPGPUBinary) (w1 w2 : World) (issued : list Call),
      compileProgram makeShader program inputs output w = (Normal binary, w1) /\
      runProgram binary inputs' output' None w1 = (Normal tt, w2) /\
      gpgpu_context.program (gpgpu w2) = Some (webGLProgram binary) /\
      outputTexture (gpgpu w2) = Some (getTexture output') /\
      trace w2 = trace w1 ++ issued ++
                 [gl_drawElements_TRIANGLES_6_UNSIGNED_SHORT_0].
Proof.
  intros program inputs inputs' output output' w source Hs Hlive Hins Hout.
  pose proof (compileProgram_live program inputs output w source Hs Hlive) as Hc.
  set (binary := mkGPGPUBinary (S (S (fresh w))) program source
                   (map shapeInfoOf inputs) (shapeInfoOf output)) in *.
  set (w1 := mkWorld (gpgpu w)
               (trace w ++ createProgramCalls (gpgpu w) (fresh w) source)
               (S (S (S (fresh w)))) (readPixels w)) in *.
  assert (Hlive1 : disposed (gpgpu w1) = false) by exact Hlive.
  pose proof (runProgram_prepared binary inputs' output' None w1
                (Forall2_matches_shapeInfoOf _ _ Hins)
                (matches_shapeInfoOf _ _ Hout) Hlive1) as Hr.
  match type of Hr with _ = bind _ _ ?wb =>
    set (bound := wb) in *;
    rewrite (bind_normal _ _ bound tt bound (after_nil_ret bound)) in Hr;
    assert (Hp : gpgpu_context.program (gpgpu bound) = Some (webGLProgram binary))
      by reflexivity;
    assert (Hlb : disposed (gpgpu bound) = false) by exact Hlive;
    rewrite (executeProgram_live bound (webGLProgram binary) Hlb Hp) in Hr
  end.
  exists binary, w1, (after bound (gpgpu bound)
                        (executeCalls (gpgpu bound) (webGLProgram binary))).
  exists (outputBindingCalls (gpgpu w1) (getTexture output')
            (snd (getTextureShapeRC output')) (fst (getTextureShapeRC output')) ++
          programBindingCalls (gpgpu w1) (webGLProgram binary) ++
          inputBindingCalls 0 (Some (webGLProgram binary))
            (variableNames program) inputs' ++
          [bindVertexProgramAttributeStreams (Some (webGLProgram binary))
             (vertexBuffer (gpgpu w))] ++
          (if autoDebugValidate (gpgpu w)
           then [validateProgram (webGLProgram binary); validateFramebuffer]
           else [])).
  split; [exact Hc|]. split; [exact Hr|].
  split; [reflexivity|]. split; [reflexivity|].
  subst bound. unfold after, executeCalls; cbn [trace gpgpu].
  rewrite <- !app_assoc. reflexivity.
Qed.

(** X14.  [compileProgram] never gets past a disposed context.  On a
    disposed context it always throws, and the world is the one it was called
    in: nothing is created.  The shader compiler is still asked first, so the
    error is the compiler's when the compiler throws, and the
    disposed-context error when the compiler returns a source. *)
Theorem compileProgram_on_disposed_context :
  forall (program : GPGPUProgram) (inputs : list NDArray) (output : NDArray)
         (w : World),
    disposed (gpgpu w) = true ->
    exists e : Exn,
      compileProgram makeShader program inputs output w = (Throw e, w) /\
      (makeShader (inputInfosOf program inputs) (shapeInfoOf output)
         (userCode program) (broadcasting program) = Throw e \/
       (e = Error disposedMessage /\
        exists source : string,
          makeShader (inputInfosOf program inputs) (shapeInfoOf output)
            (userCode program) (broadcasting program) = Normal source)).
Proof.
  intros program inputs output w Hd.
  unfold compileProgram. unfold bind at 1. unfold lift.
  change (makeShader _ _ _ _)
    with (makeShader (inputInfosOf program inputs) (shapeInfoOf output)
            (userCode program) (broadcasting program)).
  destruct (makeShader (inputInfosOf program inputs) (shapeInfoOf output)
              (userCode program) (broadcasting program)) as [source | e0].
  - exists (Error disposedMessage). split.
    + unfold bind. rewrite createProgram_disposed by exact Hd. reflexivity.
    + right. split; [reflexivity|]. exists source. reflexivity.
  - exists e0. split; [reflexivity | left; reflexivity].
Qed.

End CompileRunFacts.

Lemma compiled_binary_runs_on_same_shapes_witness :
  exists (binary : GPGPUBinary) (w1 w2 : World) (issued : list Call),
    compileProgram (fun _ _ userCode _ => Normal userCode) sampleProgram
      [arrayA; arrayB] arrayOut readyWorld = (Normal binary, w1) /\
    runProgram binary [mkNDArray [2; 2]%Z (2, 2)%Z 30; arrayB]
      (mkNDArray [2; 2]%Z (2, 2)%Z 31) None w1 = (Normal tt, w2) /\
    gpgpu_context.program (gpgpu w2) = Some (webGLProgram binary) /\
    outputTexture (gpgpu w2) = Some 31 /\
    trace w2 = trace w1 ++ issued ++
               [gl_drawElements_TRIANGLES_6_UNSIGNED_SHORT_0].
Proof.
  refine (compiled_binary_runs_on_same_shapes
            (fun _ _ userCode _ => Normal userCode) sampleProgram
            [arrayA; arrayB] [mkNDArray [2; 2]%Z (2, 2)%Z 30; arrayB]
            arrayOut (mkNDArray [2; 2]%Z (2, 2)%Z 31) readyWorld
            "setOutput(getA() + getB());" eq_refl eq_refl _ eq_refl).
  repeat constructor.
Defined.

Lemma compileProgram_on_disposed_context_witness :
  exists e : Exn,
    compileProgram (fun _ _ userCode _ => Normal userCode) sampleProgram
      [arrayA; arrayB] arrayOut leakyDisposedWorld =
      (Throw e, leakyDisposedWorld) /\
    (Normal (userCode sampleProgram) = Throw e \/
     (e = Error disposedMessage /\
      exists source : string, Normal (userCode sampleProgram) = Normal source)).
Proof.
  exact (compileProgram_on_disposed_context
           (fun _ _ userCode _ => Normal userCode) sampleProgram
           [arrayA; arrayB] arrayOut leakyDisposedWorld eq_refl).
Defined.

(** X11.  On a disposed context [runProgram] always throws and does
    nothing: no call is issued, no slot written and the hook is never
    invoked.  The validations still come first, so the error is the arity
    error when the input count is not the compiled one, the shape error of a
    pair that differs when the counts agree and some pair differs (logical
    shape before texture shape), and the disposed-context error exactly when
    every input and the output match the snapshot. *)
Theorem runProgram_on_disposed_context :
  forall (binary : GPGPUBinary) (inputs : list NDArray) (output : NDArray)
         (customSetup : option (M unit)) (w : World),
    disposed (gpgpu w) = true ->
    exists e : Exn,
      runProgram binary inputs output customSetup w = (Throw e, w) /\
      (e = Error disposedMessage <->
       Forall2 matches (inShapeInfos binary) inputs /\
       matches (outShapeInfo binary) output) /\
      ((Forall2 matches (inShapeInfos binary) inputs /\
        matches (outShapeInfo binary) output /\
        e = Error disposedMessage) \/
       (length inputs <> length (inShapeInfos binary) /\
        e = Error (arityMessage (length (inShapeInfos binary)) (length inputs))) \/
       (length inputs = length (inShapeInfos binary) /\
        exists (s : ShapeInfo) (x : NDArray),
          In (s, x) (comparedPairs binary inputs output) /\
          reportsDifferenceOf s x e)).
Proof.
  intros binary inputs output customSetup w Hd.
  assert (Hset : forall t width height,
             setOutputMatrixTextureDriver t width height w =
             (Throw (Error disposedMessage), w)).
  { intros. open_world w. reflexivity. }
  assert (Hne : forall s x e,
             reportsDifferenceOf s x e -> e <> Error disposedMessage).
  { intros s x e [[_ ->] | [_ [_ ->]]]; unfold shapeMessage, texShapeMessage;
      simpl; discriminate. }
  unfold comparedPairs.
  destruct (Nat.eq_dec (length inputs) (length (inShapeInfos binary)))
    as [Hlen | Hlen].
  - destruct (validatePairs_first (inShapeInfos binary) inputs Hlen)
      as [[Hok Hall] | (before & s & x & rest & e & Hc & Hb & Hn & Ht)].
    + assert (H1 : lift (validateBinaryAndProgram (inShapeInfos binary) inputs)
                     w = (Normal tt, w)).
      { unfold lift. rewrite validateBinaryAndProgram_same_arity by exact Hlen.
        rewrite Hok. reflexivity. }
      destruct (validatePairs_first [outShapeInfo binary] [output] eq_refl)
        as [[Hok' Hall'] | (before & s & x & rest & e & Hc & Hb & Hn & Ht)].
      * assert (Hout : matches (outShapeInfo binary) output)
          by (inversion Hall'; assumption).
        assert (H2 : lift (validateBinaryAndProgram [outShapeInfo binary]
                             [output]) w = (Normal tt, w)).
        { unfold lift.
          rewrite validateBinaryAndProgram_same_arity by reflexivity.
          rewrite Hok'. reflexivity. }
        exists (Error disposedMessage). split.
        { unfold runProgram.
          rewrite (bind_normal _ _ _ _ _ H1), (bind_normal _ _ _ _ _ H2).
          unfold setOutputMatrixTexture.
          exact (bind_throw _ _ w _ w (Hset _ _ _)). }
        split; [split; auto | left; auto].
      * assert (Hsx : (s, x) = (outShapeInfo binary, output)).
        { simpl in Hc. destruct before as [|b before]; simpl in Hc.
          - injection Hc as <- <- _. reflexivity.
          - injection Hc as _ Hc. destruct before; discriminate Hc. }
        injection Hsx as -> ->.
        assert (H2 : lift (validateBinaryAndProgram [outShapeInfo binary]
                             [output]) w = (Throw e, w)).
        { unfold lift.
          rewrite validateBinaryAndProgram_same_arity by reflexivity.
          rewrite Ht. reflexivity. }
        exists e. split.
        { unfold runProgram. rewrite (bind_normal _ _ _ _ _ H1).
          exact (bind_throw _ _ _ _ _ H2). }
        split.
        { split.
          - intros He. exfalso. exact (Hne _ _ _ Hn He).
          - intros [_ Hout]. exfalso.
            exact (reportsDifferenceOf_differs _ _ _ Hn Hout). }
        right. right. split; [exact Hlen|].
        exists (outShapeInfo binary), output.
        split; [apply in_or_app; right; left; reflexivity | exact Hn].
    + assert (H1 : lift (validateBinaryAndProgram (inShapeInfos binary) inputs)
                     w = (Throw e, w)).
      { unfold lift. rewrite validateBinaryAndProgram_same_arity by exact Hlen.
        rewrite Ht. reflexivity. }
      assert (Hin : In (s, x) (combine (inShapeInfos binary) inputs)).
      { rewrite Hc. apply in_elt. }
      exists e. split.
      { unfold runProgram. exact (bind_throw _ _ _ _ _ H1). }
      split.
      { split.
        - intros He. exfalso. exact (Hne _ _ _ Hn He).
        - intros [Hins _]. exfalso.
          apply (Forall2_matches_no_differs _ _ Hins).
          apply Exists_exists. exists (s, x).
          split; [exact Hin | exact (reportsDifferenceOf_differs _ _ _ Hn)]. }
      right. right. split; [exact Hlen|].
      exists s, x. split; [apply in_or_app; left; exact Hin | exact Hn].
  - assert (H1 : lift (validateBinaryAndProgram (inShapeInfos binary) inputs)
                   w =
                 (Throw (Error (arityMessage (length (inShapeInfos binary))
                                  (length inputs))), w)).
    { unfold lift. rewrite validateBinaryAndProgram_arity by exact Hlen.
      reflexivity. }
    exists (Error (arityMessage (length (inShapeInfos binary)) (length inputs))).
    split.
    { unfold runProgram. exact (bind_throw _ _ _ _ _ H1). }
    split.
    { split.
      - unfold arityMessage. simpl. discriminate.
      - intros [Hins _]. exfalso. apply Hlen. symmetry.
        exact (Forall2_length Hins). }
    right. left. split; [exact Hlen | reflexivity].
Qed.

Lemma runProgram_on_disposed_context_witness :
  exists e : Exn,
    runProgram sampleBinary [arrayA; arrayV] arrayOut None leakyDisposedWorld =
      (Throw e, leakyDisposedWorld) /\
    (e = Error disposedMessage <->
     Forall2 matches (inShapeInfos sampleBinary) [arrayA; arrayV] /\
     matches (outShapeInfo sampleBinary) arrayOut) /\
    ((Forall2 matches (inShapeInfos sampleBinary) [arrayA; arrayV] /\
      matches (outShapeInfo sampleBinary) arrayOut /\
      e = Error disposedMessage) \/
     (length [arrayA; arrayV] <> length (inShapeInfos sampleBinary) /\
      e = Error (arityMessage (length (inShapeInfos sampleBinary))
                   (length [arrayA; arrayV]))) \/
     (length [arrayA; arrayV] = length (inShapeInfos sampleBinary) /\
      exists (s : ShapeInfo) (x : NDArray),
        In (s, x) (comparedPairs sampleBinary [arrayA; arrayV] arrayOut) /\
        reportsDifferenceOf s x e)).
Proof.
  exact (runProgram_on_disposed_context sampleBinary [arrayA; arrayV] arrayOut
           None leakyDisposedWorld eq_refl).
Defined.

(** X12.  The broadcasting flag is part of the key for good: two calls for
    the same operation name, one with [supportsBroadcasting === true] and one
    without, never share a key, whatever their inputs, outputs and
    parameters are. *)
Theorem makeShaderKey_separates_broadcasting :
  forall (p1 p2 : GPGPUProgram) (inputs1 inputs2 : list NDArray)
         (output1 output2 : NDArray),
    constructor_name p1 = constructor_name p2 ->
    broadcasting p1 <> broadcasting p2 ->
    makeShaderKey p1 inputs1 output1 <> makeShaderKey p2 inputs2 output2.
Proof.
  intros p1 p2 inputs1 inputs2 output1 output2 Hn Hb Hkey.
  rewrite !makeShaderKey_parts, Hn, !append_assoc in Hkey.
  apply append_inv_head in Hkey.
  destruct (broadcasting p1), (broadcasting p2); try congruence;
    simpl in Hkey; discriminate Hkey.
Qed.

Lemma makeShaderKey_separates_broadcasting_witness :
  makeShaderKey sampleProgram [arrayA; arrayB] arrayOut <>
  makeShaderKey
    (mkGPGPUProgram "AddProgram" ["A"; "B"] [2; 2]%Z
       [p_number 3; p_array [1; 2]%Z] "setOutput(getA() + getB());" None)
    [arrayA; arrayB] arrayOut.
Proof.
  refine (makeShaderKey_separates_broadcasting sampleProgram
            (mkGPGPUProgram "AddProgram" ["A"; "B"] [2; 2]%Z
               [p_number 3; p_array [1; 2]%Z] "setOutput(getA() + getB());"
               None)
            [arrayA; arrayB] [arrayA; arrayB] arrayOut arrayOut eq_refl _).
  discriminate.
Defined.

(** X13.  The key does not say where the shapes end and the parameters
    begin.  Taking the last array out of a call and putting the text of its
    key element in front of the parameters gives the same key: a call with
    inputs [inputs ++ [x]] and output [output] collides with the call with
    inputs [inputs], output [x] and one more leading parameter whose
    [toString()] is the element of [output].  Keys are therefore only
    comparable between calls of one descriptor, as in C3. *)
Theorem makeShaderKey_blends_shapes_and_params :
  forall (p : GPGPUProgram) (inputs : list NDArray) (x output : NDArray),
    makeShaderKey p (inputs ++ [x]) output =
    makeShaderKey (withParam (p_string (keyElement (shapeData output))) p)
      inputs x.
Proof.
  intros p inputs x output.
  rewrite !makeShaderKey_parts. unfold withParam; cbn [constructor_name
    broadcasting supportsBroadcasting params].
  rewrite !map_app, !trailing_app. cbn [map trailing toString].
  rewrite !append_assoc. cbn [append]. reflexivity.
Qed.

(* ================================================================== *)
(** ** Properties of the constructor *)

(** X15.  Construction checks capabilities before it allocates.  The
    constructor asks for one float extension (OES_texture_float without
    WebGL 2, EXT_color_buffer_float with it, never both) and then for
    WEBGL_lose_context.  If either request throws, the constructor throws
    that error and no buffer or framebuffer has been created.  If both
    succeed, it creates the vertex buffer, the index buffer and the
    framebuffer, in this order, and the context starts live with nothing
    bound and debug validation off, so disposing it at once would emit no
    leak diagnostic.  A rendering context is created only when none is
    passed in. *)
Theorem constructor_checks_before_allocating :
  forall (isWebGL2Enabled : bool) (extension : string -> Completion unit)
         (gl : option gpgpu_context_new.WebGLRenderingContext)
         (h : gpgpu_context_new.Host),
    let this_gl := match gl with
                   | Some g => g
                   | None => gpgpu_context_new.next h
                   end in
    let n := match gl with
             | Some _ => gpgpu_context_new.next h
             | None => S (gpgpu_context_new.next h)
             end in
    let opened :=
      gpgpu_context_new.calls h ++
      match gl with
      | Some _ => []
      | None => [gpgpu_context_new.createWebGLContext (gpgpu_context_new.next h)]
      end in
    let float := gpgpu_context_new.floatExtension isWebGL2Enabled in
    let result :=
      gpgpu_context_new.constructor isWebGL2Enabled extension gl h in
    (forall e, extension float = Throw e ->
       result =
         (Throw e,
          gpgpu_context_new.mkHost
            (opened ++ [gpgpu_context_new.getExtensionOrThrow this_gl float])
            n)) /\
    (forall e, extension float = Normal tt ->
       extension "WEBGL_lose_context" = Throw e ->
       result =
         (Throw e,
          gpgpu_context_new.mkHost
            (opened ++
             [gpgpu_context_new.getExtensionOrThrow this_gl float;
              gpgpu_context_new.getExtensionOrThrow this_gl "WEBGL_lose_context"])
            n)) /\
    (extension float = Normal tt ->
     extension "WEBGL_lose_context" = Normal tt ->
     result =
       (Normal (mkGPGPUContext n (S n) (S (S n)) None None false false),
        gpgpu_context_new.mkHost
          (opened ++
           [gpgpu_context_new.getExtensionOrThrow this_gl float;
            gpgpu_context_new.getExtensionOrThrow this_gl "WEBGL_lose_context";
            gpgpu_context_new.createVertexBuffer this_gl n;
            gpgpu_context_new.createIndexBuffer this_gl (S n);
            gpgpu_context_new.createFramebuffer this_gl (S (S n))])
          (S (S (S n)))) /\
     leakCalls (mkGPGPUContext n (S n) (S (S n)) None None false false) = []) /\
    (forall e h', result = (Throw e, h') ->
       existsb gpgpu_context_new.allocates (gpgpu_context_new.calls h') =
       existsb gpgpu_context_new.allocates (gpgpu_context_new.calls h)).
Proof.
  intros webgl2 extension gl h this_gl n opened float result.
  subst this_gl n opened float result.
  unfold gpgpu_context_new.constructor, gpgpu_context_new.floatExtension.
  destruct h as [cs nx].
  repeat split.
  - intros e He. destruct gl, webgl2; cbn in *; rewrite He;
      rewrite <- ?app_assoc; reflexivity.
  - intros e Hf He. destruct gl, webgl2; cbn in *; rewrite ?Hf, ?He; cbn;
      rewrite ?Hf, ?He; rewrite <- ?app_assoc; reflexivity.
  - destruct gl, webgl2; cbn in *; rewrite ?H, ?H0; cbn;
      rewrite ?H, ?H0; rewrite <- ?app_assoc; reflexivity.
  - intros e h' Hr.
    destruct gl, webgl2; cbn in Hr;
      repeat match type of Hr with
             | context [extension ?s] =>
                 destruct (extension s) as [[]|?]; cbn in Hr
             end;
      inversion Hr; subst; cbn;
      rewrite ?existsb_app; cbn; rewrite ?orb_false_r; reflexivity.
Qed.

Lemma constructor_checks_before_allocating_witness :
  gpgpu_context_new.constructor false
    (fun name => if String.eqb name "WEBGL_lose_context"
                 then Throw (Error "extension not supported.")
                 else Normal tt)
    None (gpgpu_context_new.mkHost [] 0) =
  (Throw (Error "extension not supported."),
   gpgpu_context_new.mkHost
     [gpgpu_context_new.createWebGLContext 0;
      gpgpu_context_new.getExtensionOrThrow 0 "OES_texture_float";
      gpgpu_context_new.getExtensionOrThrow 0 "WEBGL_lose_context"] 1).
Proof.
  exact (proj1 (proj2 (constructor_checks_before_allocating false
           (fun name => if String.eqb name "WEBGL_lose_context"
                        then Throw (Error "extension not supported.")
                        else Normal tt)
           None (gpgpu_context_new.mkHost [] 0)))
         (Error "extension not supported.") eq_refl eq_refl).
Defined.

(* ================================================================== *)
(** ** Invariants of the context over all its methods *)

(** X16.  The bound-output slot mirrors the framebuffer.  If the texture
    attached to the context's framebuffer is the one in the bound-output slot
    (none attached, none bound: the state after construction), then this is
    still so whenever a public method other than [dispose] returns normally:
    binding an output attaches and records it, deleting the bound output
    detaches and clears it, a download puts back what it displaced, and
    nothing else touches either. *)
Theorem output_slot_mirrors_framebuffer :
  forall (getPackedMatrixTextureShapeWidthHeight : Z -> Z -> Z * Z)
         (m : Method) (w w' : World) (r : Returned),
    m <> m_dispose ->
    slotMirrorsFramebuffer w ->
    invoke getPackedMatrixTextureShapeWidthHeight m w = (Normal r, w') ->
    slotMirrorsFramebuffer w'.
Proof.
  intros f m w w' r Hm Hinv Hrun.
  assert (Hw : w' = snd (invoke f m w)) by (rewrite Hrun; reflexivity).
  subst w'. clear Hrun r.
  unfold slotMirrorsFramebuffer, attachedTexture in *.
  open_world w.
  destruct m; try congruence; step;
    try match goal with |- context [f ?r ?c] => destruct (f r c) end;
    step; unfold option_nat_eqb;
    repeat match goal with
           | |- context [if ?b then _ else _] => destruct b eqn:?
           | |- context [match ?x with Some _ => _ | None => _ end] =>
               destruct x eqn:?
           end;
    simpl; rewrite ?colorAttachment_app; simpl; rewrite ?Nat.eqb_refl;
    try reflexivity; try assumption; try congruence.
Qed.

Lemma output_slot_mirrors_framebuffer_witness :
  slotMirrorsFramebuffer
    (snd (invoke (fun rows columns => (columns, rows))
            (m_downloadMatrixFromTexture 10 2 2) boundWorld)).
Proof.
  refine (output_slot_mirrors_framebuffer (fun rows columns => (columns, rows))
            (m_downloadMatrixFromTexture 10 2 2) boundWorld _
            (r_array []) _ eq_refl eq_refl).
  discriminate.
Defined.

(** X17.  Only [executeProgram] draws and only the downloads read back.
    The calls a public method other than [executeProgram] adds to the history
    contain no draw call, and the calls a public method other than
    [downloadMatrixFromTexture] and [downloadMatrixFromPackedTexture] adds
    contain no read-back. *)
Theorem only_executeProgram_draws :
  forall (getPackedMatrixTextureShapeWidthHeight : Z -> Z -> Z * Z)
         (m : Method) (w : World),
    exists issued : list Call,
      trace (snd (invoke getPackedMatrixTextureShapeWidthHeight m w)) =
        trace w ++ issued /\
      (m <> m_executeProgram -> existsb isDraw issued = false) /\
      (isDownload m = false -> existsb isReadback issued = false).
Proof.
  intros f m w. open_world w.
  destruct m; step;
    try match goal with |- context [f ?r ?c] => destruct (f r c) end;
    step; unfold option_nat_eqb;
    repeat match goal with
           | |- context [if ?b then _ else _] => destruct b
           | |- context [match ?x with Some _ => _ | None => _ end] => destruct x
           end;
    simpl; rewrite <- ?app_assoc;
    first [ exists []; split; [symmetry; apply app_nil_r |];
            split; intros; reflexivity
          | eexists; split; [reflexivity |];
            split; intros; first [reflexivity | congruence | discriminate] ].
Qed.

Lemma only_executeProgram_draws_witness :
  exists issued : list Call,
    trace (snd (invoke (fun rows columns => (columns, rows))
                  (m_downloadMatrixFromTexture 10 2 2) boundWorld)) =
      trace boundWorld ++ issued /\
    (m_downloadMatrixFromTexture 10 2 2 <> m_executeProgram ->
     existsb isDraw issued = false) /\
    (isDownload (m_downloadMatrixFromTexture 10 2 2) = false ->
     existsb isReadback issued = false).
Proof.
  exact (only_executeProgram_draws (fun rows columns => (columns, rows))
           (m_downloadMatrixFromTexture 10 2 2) boundWorld).
Defined.
